(** * Authentication, sessions and authorization of the account platform

    A shallow embedding of [app/utils/auth.server.ts],
    [app/utils/permissions.server.ts] and the OAuth callback loader
    [app/routes/_auth+/auth.$provider.callback.ts], over a relational
    store shaped after the Prisma migration.

    Conventions.
    - Identifiers, e-mails, names are JavaScript strings: [string].
    - A [Date] is its number of milliseconds since the epoch: [Z].
    - A value that may be [null]/[undefined] is an [option]; JavaScript
      truthiness of a nullable string is [truthy].
    - Every [async] function is a computation in the monad [M]: it reads
      and writes a [World] and either returns or throws. *)

From Stdlib Require Import String Ascii List ZArith Bool Lia.
Import ListNotations.

Local Open Scope string_scope.
Local Open Scope list_scope.
Local Open Scope Z_scope.

(** ** JavaScript values *)

Abbreviation Id := string.
Abbreviation Date := Z.

(** [!!s] for a nullable string: [null], [undefined] and the empty
    string are falsy. *)
Definition truthy (v : option string) : bool :=
  match v with
  | None => false
  | Some s => negb (s =? EmptyString)%string
  end.

(** A template literal prints an undefined value as the word itself. *)
Definition template (v : option string) : string :=
  match v with
  | None => "undefined"
  | Some s => s
  end.

Definition dquote : string := String (ascii_of_nat 34) EmptyString.

(** ** The store: one list of rows per table of the migration *)

Record Organization := { organization_id : Id }.

Record Account := {
  account_id : Id;
  account_email : string;
  account_username : string }.

Record Password := {
  password_accountId : Id;
  hash : string }.

Record User := {
  user_id : Id;
  user_accountId : Id;
  user_name : string;
  user_username : string;
  user_email : string }.

Record Membership := {
  membership_id : Id;
  membership_userId : option Id;
  organizationId : Id }.

Record Role := {
  role_id : Id;
  role_name : string }.

Record Permission := {
  permission_id : Id;
  action : string;
  entity : string;
  access : string }.

Record Session := {
  session_id : Id;
  expirationDate : Date;
  activeAccountId : option Id }.

Record Connection := {
  connection_id : Id;
  providerName : string;
  providerId : string;
  connection_accountId : option Id }.

Record Verification := {
  verification_type : string;
  verification_target : string }.

(** The implicit many-to-many relations are join tables of pairs
    [(A, B)], as in the migration: [_AccountToSession] pairs an account
    with a session, [_MembershipToRole] a membership with a role,
    [_RolePermissions] a permission with a role.  Roles hang on
    memberships only: the migration has no relation between a user and
    a role. *)
Record Store := {
  organizations : list Organization;
  accounts : list Account;
  passwords : list Password;
  users : list User;
  memberships : list Membership;
  roles : list Role;
  permissions : list Permission;
  sessions : list Session;
  connections : list Connection;
  verifications : list Verification;
  AccountToSession : list (Id * Id);
  MembershipToRole : list (Id * Id);
  RolePermissions : list (Id * Id) }.

Definition pair_eqb (p q : Id * Id) : bool :=
  ((fst p =? fst q) && (snd p =? snd q))%string.

Definition joined (t : list (Id * Id)) (a b : Id) : bool :=
  existsb (pair_eqb (a, b)) t.

(** ** Requests and responses *)

Record Request := {
  (** [authSession.get(sessionKey)] of the signed auth cookie *)
  cookie_sessionId : option string;
  (** the pending redirect target cookie *)
  cookie_redirectTo : option string;
  url_pathname : string;
  url_search : string }.

Record ProviderUser := {
  profile_id : string;
  profile_email : string;
  profile_username : option string;
  profile_name : option string;
  profile_imageUrl : option string }.

Record Toast := {
  toast_title : string;
  toast_description : string;
  toast_type : option string }.

Record PermissionData := {
  pd_action : string;
  pd_entity : string;
  pd_access : option (list string) }.

(** What the verification-flow session holds when it is committed. *)
Record VerifySession := {
  onboardingEmail : option string;
  prefilledProfile : option ProviderUser;
  providerIdKey : option string;
  unverifiedSessionId : option Id;
  rememberKey : option bool }.

Definition emptyVerifySession : VerifySession :=
  {| onboardingEmail := None; prefilledProfile := None;
     providerIdKey := None; unverifiedSessionId := None;
     rememberKey := None |}.

(** One [set-cookie] header of a response. *)
Inductive SetCookie :=
| DestroyAuthSession
| CommitAuthSession (sessionId : Id) (expires : option Date)
| CommitVerifySession (v : VerifySession)
| DestroyRedirectTo
| ToastCookie (t : Toast).

(** A location: a path and the entries of its [URLSearchParams]. *)
Record Url := {
  pathname : string;
  searchParams : list (string * string) }.

Inductive Body :=
| NoBody
| UnauthorizedPermission (requiredPermission : PermissionData) (message : string)
| UnauthorizedRole (requiredRole : string) (message : string).

Record Response := {
  status : Z;
  location : option Url;
  setCookie : list SetCookie;
  body : Body }.

(** ** Computations *)

(** The last two are raised by the client when it validates a call
    against the models, before anything reaches the database. *)
Inductive PrismaError :=
| UniqueConstraintFailed (model field : string)
| ForeignKeyConstraintFailed (model field : string)
| RecordNotFound (model : string)
| MissingArguments (model : string) (fields : list string)
| UnknownArgument (model field : string).

(** What a handler can throw: a [Response] (Remix turns it into the
    reply), a store error, a schema validation error, or the request to
    replay on the primary instance. *)
Inductive Exn :=
| ThrownResponse (r : Response)
| PrismaClientError (e : PrismaError)
| ZodError
| ReplayToPrimary.

Inductive Outcome (A : Type) :=
| Return (a : A)
| Throw (e : Exn).

Arguments Return {A} a.
Arguments Throw {A} e.

(** The mutable world of a handler: the database, what was written
    with [console.error], and how many random draws (identifiers,
    salts) were made so far. *)
Record World := {
  db : Store;
  console : list string;
  entropy : nat }.

Definition M (A : Type) : Type := World -> Outcome A * World.

Definition ret {A} (a : A) : M A := fun w => (Return a, w).

Definition throw {A} (e : Exn) : M A := fun w => (Throw e, w).

Definition bind {A B} (m : M A) (k : A -> M B) : M B :=
  fun w =>
    match m w with
    | (Return a, w') => k a w'
    | (Throw e, w') => (Throw e, w')
    end.

Declare Scope js_scope.
Delimit Scope js_scope with js.
Notation "'await' x <- m ;; k" := (bind m (fun x => k))
  (at level 61, x name, m at next level, right associativity) : js_scope.
Notation "m ;;; k" := (bind m (fun _ => k))
  (at level 61, right associativity) : js_scope.

Local Open Scope js_scope.

Definition read {A} (q : Store -> A) : M A := fun w => (Return (q (db w)), w).

Definition console_error (e : string) : M unit :=
  fun w => (Return tt,
            {| db := db w; console := console w ++ [e]; entropy := entropy w |}).

Definition draw : M nat :=
  fun w => (Return (entropy w),
            {| db := db w; console := console w; entropy := S (entropy w) |}).

(** A write to the store is a transaction: its steps run on a private
    copy, which replaces the database only if every step succeeded. *)
Definition Tx (A : Type) : Type := Store -> PrismaError + (A * Store).

Definition tx_ret {A} (a : A) : Tx A := fun s => inr (a, s).

Definition tx_bind {A B} (t : Tx A) (k : A -> Tx B) : Tx B :=
  fun s =>
    match t s with
    | inl e => inl e
    | inr (a, s') => k a s'
    end.

Notation "t >> k" := (tx_bind t (fun _ => k))
  (at level 62, right associativity) : js_scope.

Definition transaction {A} (t : Tx A) : M A :=
  fun w =>
    match t (db w) with
    | inl e => (Throw (PrismaClientError e), w)
    | inr (a, s') =>
        (Return a, {| db := s'; console := console w; entropy := entropy w |})
    end.

(** ** External collaborators

    Libraries and modules the handlers import and whose code lies
    outside the files embedded here. *)

Record Platform := {
  (** the identifier Prisma generates for a new row, from a random draw *)
  cuid : nat -> Id;
  (** [bcrypt.hash(password, rounds)], salted from a random draw *)
  bcrypt_hash : string -> nat -> nat -> string;
  (** [bcrypt.compare(password, hash)] *)
  bcrypt_compare : string -> string -> bool;
  (** [String.prototype.toLowerCase] *)
  toLowerCase : string -> string;
  normalizeEmail : string -> string;
  normalizeUsername : string -> string;
  (** the provider names [ProviderNameSchema] accepts *)
  ProviderNameSchema : string -> bool;
  providerLabels : string -> string;
  twoFAVerificationType : string;
  (** [parsePermissionString] of [user.ts] *)
  parsePermissionString : string -> PermissionData }.

(** What the outside answers during one request. *)
Record Env := {
  now : Date;
  (** whether this instance is the primary, write-capable one *)
  isPrimary : bool;
  (** [process.env.ORGANIZATION_ID] *)
  ORGANIZATION_ID : option string;
  (** the outcome of the provider's code exchange: a profile or an error *)
  authenticate : string -> Request -> ProviderUser + string }.

(** ** The Prisma client: queries *)

(** [===] on nullable strings. *)
Definition strict_eqb (v w : option string) : bool :=
  match v, w with
  | None, None => true
  | Some x, Some y => (x =? y)%string
  | _, _ => false
  end.

Definition option_eqb (v : option string) (s : string) : bool :=
  match v with
  | None => false
  | Some x => (x =? s)%string
  end.

(** The accounts selected through the relation [accounts] of a session. *)
Definition session_accounts (s : Store) (sid : Id) : list Account :=
  filter (fun a => joined (AccountToSession s) (account_id a) sid) (accounts s).

(** [prisma.session.findUnique({ where: { id, expirationDate: { gt } } })] *)
Definition session_findUnique_gt (sid : Id) (t : Date) (s : Store) : option Session :=
  find (fun r => (session_id r =? sid)%string && (t <? expirationDate r)) (sessions s).

Inductive AccountWhere :=
| ById (id : Id)
| ByUsername (u : string)
| ByEmail (e : string).

Definition account_where (q : AccountWhere) (a : Account) : bool :=
  match q with
  | ById id => (account_id a =? id)%string
  | ByUsername u => (account_username a =? u)%string
  | ByEmail e => (account_email a =? e)%string
  end.

Definition account_findUnique (q : AccountWhere) (s : Store) : option Account :=
  find (account_where q) (accounts s).

(** The relation [password] of an account. *)
Definition account_password (s : Store) (a : Account) : option Password :=
  find (fun p => (password_accountId p =? account_id a)%string) (passwords s).

(** [prisma.connection.findUnique({ where: { providerName_providerId } })] *)
Definition connection_findUnique (pn pid : string) (s : Store) : option Connection :=
  find (fun c => (providerName c =? pn)%string && (providerId c =? pid)%string)
       (connections s).

Definition verification_findUnique (target type : string) (s : Store) : option Verification :=
  find (fun v => (verification_target v =? target)%string
                 && (verification_type v =? type)%string)
       (verifications s).

(** Relations of the permission graph. *)
Definition user_memberships (s : Store) (u : User) : list Membership :=
  filter (fun m => option_eqb (membership_userId m) (user_id u)) (memberships s).

Definition membership_roles (s : Store) (m : Membership) : list Role :=
  filter (fun r => joined (MembershipToRole s) (membership_id m) (role_id r)) (roles s).

Definition role_permissions (s : Store) (r : Role) : list Permission :=
  filter (fun p => joined (RolePermissions s) (permission_id p) (role_id r))
         (permissions s).

(** The filter [{ ...permissionData, access: access ? { in: access } : undefined }]
    on a permission: an undefined [access] filters nothing. *)
Definition permission_where (pd : PermissionData) (p : Permission) : bool :=
  (action p =? pd_action pd)%string
  && (entity p =? pd_entity pd)%string
  && match pd_access pd with
     | Some l => existsb (String.eqb (access p)) l
     | None => true
     end.

(** The [where] of [requireUserWithPermission]:
    [{ id, memberships: { some: { organizationId, roles: { some:
       { permissions: { some: ... } } } } } }]. *)
Definition user_where_permission (s : Store) (id org : Id) (pd : PermissionData)
    (u : User) : bool :=
  (user_id u =? id)%string
  && existsb (fun m =>
       (organizationId m =? org)%string
       && existsb (fun r => existsb (permission_where pd) (role_permissions s r))
                  (membership_roles s m))
     (user_memberships s u).

(** The [where] of [requireUserWithRole] is
    [{ id, roles: { some: { name } } }].  A user of the migration has the
    columns [id], [createdAt], [updatedAt], [accountId], [name],
    [username], [email], the relation to its account and the relations
    that the foreign keys [Membership_userId_fkey],
    [Membership_invitedById_fkey], [UserImage_userId_fkey] and
    [Note_ownerId_fkey] give it; [roles] is none of them, so the client
    refuses the query. *)
Definition user_findFirst_where_roles (id : Id) (n : string) : M (option User) :=
  throw (PrismaClientError (UnknownArgument "User" "roles")).

Definition user_findFirst (f : User -> bool) (s : Store) : option User :=
  find f (users s).

(** ** The Prisma client: writes *)

Definition set_sessions (s : Store) (v : list Session) : Store :=
  {| organizations := organizations s; accounts := accounts s;
     passwords := passwords s; users := users s; memberships := memberships s;
     roles := roles s; permissions := permissions s; sessions := v;
     connections := connections s; verifications := verifications s;
     AccountToSession := AccountToSession s; MembershipToRole := MembershipToRole s;
     RolePermissions := RolePermissions s |}.

Definition set_accounts (s : Store) (v : list Account) : Store :=
  {| organizations := organizations s; accounts := v;
     passwords := passwords s; users := users s; memberships := memberships s;
     roles := roles s; permissions := permissions s; sessions := sessions s;
     connections := connections s; verifications := verifications s;
     AccountToSession := AccountToSession s; MembershipToRole := MembershipToRole s;
     RolePermissions := RolePermissions s |}.

Definition set_passwords (s : Store) (v : list Password) : Store :=
  {| organizations := organizations s; accounts := accounts s;
     passwords := v; users := users s; memberships := memberships s;
     roles := roles s; permissions := permissions s; sessions := sessions s;
     connections := connections s; verifications := verifications s;
     AccountToSession := AccountToSession s; MembershipToRole := MembershipToRole s;
     RolePermissions := RolePermissions s |}.

Definition set_users (s : Store) (v : list User) : Store :=
  {| organizations := organizations s; accounts := accounts s;
     passwords := passwords s; users := v; memberships := memberships s;
     roles := roles s; permissions := permissions s; sessions := sessions s;
     connections := connections s; verifications := verifications s;
     AccountToSession := AccountToSession s; MembershipToRole := MembershipToRole s;
     RolePermissions := RolePermissions s |}.

Definition set_memberships (s : Store) (v : list Membership) : Store :=
  {| organizations := organizations s; accounts := accounts s;
     passwords := passwords s; users := users s; memberships := v;
     roles := roles s; permissions := permissions s; sessions := sessions s;
     connections := connections s; verifications := verifications s;
     AccountToSession := AccountToSession s; MembershipToRole := MembershipToRole s;
     RolePermissions := RolePermissions s |}.

Definition set_connections (s : Store) (v : list Connection) : Store :=
  {| organizations := organizations s; accounts := accounts s;
     passwords := passwords s; users := users s; memberships := memberships s;
     roles := roles s; permissions := permissions s; sessions := sessions s;
     connections := v; verifications := verifications s;
     AccountToSession := AccountToSession s; MembershipToRole := MembershipToRole s;
     RolePermissions := RolePermissions s |}.

Definition set_AccountToSession (s : Store) (v : list (Id * Id)) : Store :=
  {| organizations := organizations s; accounts := accounts s;
     passwords := passwords s; users := users s; memberships := memberships s;
     roles := roles s; permissions := permissions s; sessions := sessions s;
     connections := connections s; verifications := verifications s;
     AccountToSession := v; MembershipToRole := MembershipToRole s;
     RolePermissions := RolePermissions s |}.

Definition set_MembershipToRole (s : Store) (v : list (Id * Id)) : Store :=
  {| organizations := organizations s; accounts := accounts s;
     passwords := passwords s; users := users s; memberships := memberships s;
     roles := roles s; permissions := permissions s; sessions := sessions s;
     connections := connections s; verifications := verifications s;
     AccountToSession := AccountToSession s; MembershipToRole := v;
     RolePermissions := RolePermissions s |}.

(** Each step checks the constraints the migration puts on its table. *)

Definition session_create (r : Session) : Tx unit :=
  fun s =>
    if existsb (fun x => (session_id x =? session_id r)%string) (sessions s)
    then inl (UniqueConstraintFailed "Session" "id")
    else inr (tt, set_sessions s (sessions s ++ [r])).

Definition account_create (r : Account) : Tx unit :=
  fun s =>
    if existsb (fun x => (account_id x =? account_id r)%string) (accounts s)
    then inl (UniqueConstraintFailed "Account" "id")
    else if existsb (fun x => (account_email x =? account_email r)%string)
                    (accounts s)
    then inl (UniqueConstraintFailed "Account" "email")
    else if existsb (fun x => (account_username x =? account_username r)%string)
                    (accounts s)
    then inl (UniqueConstraintFailed "Account" "username")
    else inr (tt, set_accounts s (accounts s ++ [r])).

Definition account_exists (s : Store) (id : Id) : bool :=
  existsb (fun x => (account_id x =? id)%string) (accounts s).

Definition password_create (r : Password) : Tx unit :=
  fun s =>
    if existsb (fun x => (password_accountId x =? password_accountId r)%string)
               (passwords s)
    then inl (UniqueConstraintFailed "Password" "accountId")
    else if negb (account_exists s (password_accountId r))
    then inl (ForeignKeyConstraintFailed "Password" "accountId")
    else inr (tt, set_passwords s (passwords s ++ [r])).

(** What a caller hands to [users: { create: ... }]: the columns of
    [User] without a default.  [id] and the timestamps are filled in by
    the client and [accountId] by the enclosing [accounts.create]; the
    three texts are [NOT NULL] in the migration and have no default, so
    a call that leaves one out is refused before any row is written. *)
Record UserCreateInput := {
  data_name : option string;
  data_username : option string;
  data_email : option string }.

Definition missing (field : string) (v : option string) : list string :=
  match v with Some _ => [] | None => [field] end.

Definition user_create_input (d : UserCreateInput)
    : M (string * string * string) :=
  match data_name d, data_username d, data_email d with
  | Some n, Some u, Some e => ret (n, u, e)
  | _, _, _ =>
      throw (PrismaClientError
        (MissingArguments "User"
           (missing "name" (data_name d) ++ missing "username" (data_username d)
            ++ missing "email" (data_email d))))
  end.

Definition user_create (r : User) : Tx unit :=
  fun s =>
    if existsb (fun x => (user_id x =? user_id r)%string) (users s)
    then inl (UniqueConstraintFailed "User" "id")
    else if negb (account_exists s (user_accountId r))
    then inl (ForeignKeyConstraintFailed "User" "accountId")
    else inr (tt, set_users s (users s ++ [r])).

Definition membership_create (r : Membership) : Tx unit :=
  fun s =>
    if existsb (fun x => (membership_id x =? membership_id r)%string) (memberships s)
    then inl (UniqueConstraintFailed "Membership" "id")
    else if negb (existsb (fun o => (organization_id o =? organizationId r)%string)
                          (organizations s))
    then inl (ForeignKeyConstraintFailed "Membership" "organizationId")
    else if match membership_userId r with
            | Some u => negb (existsb (fun x => (user_id x =? u)%string) (users s))
            | None => false
            end
    then inl (ForeignKeyConstraintFailed "Membership" "userId")
    else inr (tt, set_memberships s (memberships s ++ [r])).

Definition connection_create (r : Connection) : Tx unit :=
  fun s =>
    if existsb (fun x => (connection_id x =? connection_id r)%string) (connections s)
    then inl (UniqueConstraintFailed "Connection" "id")
    else if existsb (fun x => (providerName x =? providerName r)%string
                              && (providerId x =? providerId r)%string)
                    (connections s)
    then inl (UniqueConstraintFailed "Connection" "providerName_providerId")
    else if match connection_accountId r with
            | Some a => negb (account_exists s a)
            | None => false
            end
    then inl (ForeignKeyConstraintFailed "Connection" "accountId")
    else inr (tt, set_connections s (connections s ++ [r])).

(** [accounts: { connect: { id } }] under a session. *)
Definition session_connect_account (sid aid : Id) : Tx unit :=
  fun s =>
    if negb (account_exists s aid)
    then inl (RecordNotFound "Account")
    else inr (tt, set_AccountToSession s (AccountToSession s ++ [(aid, sid)])).

(** [roles: { connect: { name } }] under a membership. *)
Definition membership_connect_role (mid : Id) (n : string) : Tx unit :=
  fun s =>
    match find (fun r => (role_name r =? n)%string) (roles s) with
    | None => inl (RecordNotFound "Role")
    | Some r =>
        inr (tt, set_MembershipToRole s (MembershipToRole s ++ [(mid, role_id r)]))
    end.

(** ** Responses *)

Definition redirect (url : Url) (headers : list SetCookie) : Response :=
  {| status := 302; location := Some url; setCookie := headers; body := NoBody |}.

Definition json (b : Body) (st : Z) : Response :=
  {| status := st; location := None; setCookie := []; body := b |}.

Definition path (p : string) : Url := {| pathname := p; searchParams := [] |}.

Definition destroyRedirectTo : list SetCookie := [DestroyRedirectTo].

(** Modelled from the spec: [toast.server.ts] is not among the sources.
    A toast is a transient notification attached to a redirect response;
    [createToastHeaders] yields the header that carries it and
    [redirectWithToast] adds that header to those it is given. *)
Definition createToastHeaders (t : Toast) : list SetCookie := [ToastCookie t].

Definition redirectWithToast (url : string) (t : Toast) (headers : list SetCookie)
    : Response :=
  redirect (path url) (headers ++ createToastHeaders t).

(** Modelled from the spec: [redirect-cookie.server.ts] is not among the
    sources.  The pending redirect target is the value of its cookie. *)
Definition getRedirectCookieValue (request : Request) : option string :=
  cookie_redirectTo request.

(** Modelled from the spec: [litefs.server.ts] is not among the sources.
    The check passes on the write-capable instance and fails fast
    elsewhere. *)
Definition ensurePrimary (env : Env) : M unit :=
  if isPrimary env then ret tt else throw ReplayToPrimary.

(** ** [app/utils/auth.server.ts] *)

Definition SESSION_EXPIRATION_TIME : Z := 1000 * 60 * 60 * 24 * 30.

Definition getSessionExpirationDate (env : Env) : Date :=
  now env + SESSION_EXPIRATION_TIME.

Inductive Optional (A : Type) :=
| Undefined
| Null
| Defined (a : A).

Arguments Undefined {A}.
Arguments Null {A}.
Arguments Defined {A} a.

Definition getAccountId (env : Env) (request : Request) : M (option Id) :=
  match cookie_sessionId request with
  | None => ret None
  | Some sessionId =>
      if negb (truthy (Some sessionId)) then ret None
      else
        await account <- read (fun s =>
          match session_findUnique_gt sessionId (now env) s with
          | None => None
          | Some session =>
              find (fun a => option_eqb (activeAccountId session) (account_id a))
                   (session_accounts s sessionId)
          end) ;;
        match account with
        | None => throw (ThrownResponse (redirect (path "/") [DestroyAuthSession]))
        | Some a => ret (Some (account_id a))
        end
  end.

Definition loginRedirect (request : Request) (redirectTo : Optional string) : Url :=
  let redirectTo' :=
    match redirectTo with
    | Null => None
    | Undefined => Some (url_pathname request ++ url_search request)%string
    | Defined r => Some r
    end in
  {| pathname := "/login";
     searchParams :=
       match redirectTo' with
       | Some r => if truthy (Some r) then [("redirectTo", r)] else []
       | None => []
       end |}.

Definition requireAccountId (env : Env) (request : Request)
    (redirectTo : Optional string) : M Id :=
  await accountId <- getAccountId env request ;;
  match accountId with
  | Some id =>
      if truthy (Some id) then ret id
      else throw (ThrownResponse (redirect (loginRedirect request redirectTo) []))
  | None => throw (ThrownResponse (redirect (loginRedirect request redirectTo) []))
  end.

Definition requireAnonymous (env : Env) (request : Request) : M unit :=
  await userId <- getAccountId env request ;;
  if truthy userId then throw (ThrownResponse (redirect (path "/") []))
  else ret tt.

Section Handlers.

Variable P : Platform.

Definition getPasswordHash (password : string) : M string :=
  await salt <- draw ;;
  ret (bcrypt_hash P password 10%nat salt).

Definition verifyAccountPassword (where_ : AccountWhere) (password : string)
    : M (option Id) :=
  await userWithPassword <- read (fun s =>
    match account_findUnique where_ s with
    | None => None
    | Some a => Some (account_id a, account_password s a)
    end) ;;
  match userWithPassword with
  | None => ret None
  | Some (_, None) => ret None
  | Some (id, Some pw) =>
      if bcrypt_compare P password (hash pw) then ret (Some id) else ret None
  end.

Definition newId : M Id :=
  await n <- draw ;;
  ret (cuid P n).

Definition login (env : Env) (username password : string)
    : M (option (Session * list Account)) :=
  await account <- verifyAccountPassword (ByUsername username) password ;;
  match account with
  | None => ret None
  | Some id =>
      await sid <- newId ;;
      let session := {| session_id := sid;
                        expirationDate := getSessionExpirationDate env;
                        activeAccountId := Some id |} in
      await accounts <- transaction (
        session_create session >>
        session_connect_account sid id >>
        fun s => inr (session_accounts s sid, s)) ;;
      ret (Some (session, accounts))
  end.

(** The nested [users.create] of [signup] gives [name] and the
    memberships only. *)
Definition signup (env : Env) (email username password name : string)
    : M (Id * Date) :=
  await hashedPassword <- getPasswordHash password ;;
  await user <- user_create_input {| data_name := Some name;
                                     data_username := None;
                                     data_email := None |} ;;
  await sid <- newId ;;
  await aid <- newId ;;
  await uid <- newId ;;
  await mid <- newId ;;
  let expirationDate := getSessionExpirationDate env in
  transaction (
    session_create {| session_id := sid; expirationDate := expirationDate;
                      activeAccountId := None |} >>
    account_create {| account_id := aid; account_email := toLowerCase P email;
                      account_username := toLowerCase P username |} >>
    session_connect_account sid aid >>
    password_create {| password_accountId := aid; hash := hashedPassword |} >>
    user_create {| user_id := uid; user_accountId := aid;
                   user_name := fst (fst user);
                   user_username := snd (fst user);
                   user_email := snd user |} >>
    membership_create {| membership_id := mid; membership_userId := Some uid;
                         organizationId := "default" |} >>
    membership_connect_role mid "user" >>
    tx_ret (sid, expirationDate)).

(** ** [app/utils/permissions.server.ts] *)

Definition organizationScope (env : Env) : Id :=
  if truthy (ORGANIZATION_ID env) then template (ORGANIZATION_ID env) else "default".

Definition requireUserWithPermission (env : Env) (request : Request)
    (permission : string) : M Id :=
  await userId <- requireAccountId env request Undefined ;;
  let permissionData := parsePermissionString P permission in
  await user <- read (fun s =>
    user_findFirst
      (user_where_permission s userId (organizationScope env) permissionData) s) ;;
  match user with
  | None =>
      throw (ThrownResponse (json
        (UnauthorizedPermission permissionData
           ("Unauthorized: required permissions: " ++ permission)%string)
        403))
  | Some u => ret (user_id u)
  end.

Definition requireUserWithRole (env : Env) (request : Request) (name : string)
    : M Id :=
  await userId <- requireAccountId env request Undefined ;;
  await user <- user_findFirst_where_roles userId name ;;
  match user with
  | None =>
      throw (ThrownResponse (json
        (UnauthorizedRole name ("Unauthorized: required role: " ++ name)%string)
        403))
  | Some u => ret (user_id u)
  end.

(** ** [app/routes/_auth+/auth.$provider.callback.ts] *)

(** Modelled from the spec: [login.server.ts] is not among the sources.
    Before a new session is issued, an account with a two-factor
    verification of the platform's type is sent to the challenge route
    with [type], [target] and [redirectTo], and no auth cookie is set;
    otherwise the auth cookie is set and the caller goes to
    [redirectTo]. *)
Definition handleNewSession (request : Request) (session : Session)
    (redirectTo : string) (remember : bool) (headers : list SetCookie)
    : M Response :=
  await verification <- read (fun s =>
    match activeAccountId session with
    | None => None
    | Some a =>
        match verification_findUnique a (twoFAVerificationType P) s with
        | None => None
        | Some _ => Some a
        end
    end) ;;
  match verification with
  | Some target =>
      ret (redirect
             {| pathname := "/verify";
                searchParams := [("type", twoFAVerificationType P);
                                 ("target", target);
                                 ("redirectTo", redirectTo)] |}
             (CommitVerifySession
                {| onboardingEmail := None; prefilledProfile := None;
                   providerIdKey := None;
                   unverifiedSessionId := Some (session_id session);
                   rememberKey := Some remember |} :: headers))
  | None =>
      ret (redirect (path redirectTo)
             (CommitAuthSession (session_id session)
                (if remember then Some (expirationDate session) else None)
              :: headers))
  end.

Definition makeSession (env : Env) (request : Request)
    (activeAccountId : option Id) (redirectTo : option string)
    (headers : list SetCookie) : M Response :=
  let redirectTo := match redirectTo with Some r => r | None => "/" end in
  await sid <- newId ;;
  let session := {| session_id := sid;
                    expirationDate := getSessionExpirationDate env;
                    activeAccountId := activeAccountId |} in
  transaction (session_create session) ;;;
  handleNewSession request session redirectTo true (headers ++ destroyRedirectTo).

Definition ProviderNameSchema_parse (provider : option string) : M string :=
  match provider with
  | Some p => if ProviderNameSchema P p then ret p else throw ZodError
  | None => throw ZodError
  end.

Definition connectionsRoute : string := "/settings/profile/connections".

Definition loader (env : Env) (request : Request) (params_provider : option string)
    : M Response :=
  ensurePrimary env ;;;
  await providerName <- ProviderNameSchema_parse params_provider ;;
  let redirectTo := getRedirectCookieValue request in
  let label := providerLabels P providerName in
  match authenticate env providerName request with
  | inr error =>
      console_error error ;;;
      throw (ThrownResponse (redirectWithToast "/login"
        {| toast_title := "Auth Failed";
           toast_description :=
             ("There was an error authenticating with " ++ label ++ ".")%string;
           toast_type := Some "error" |}
        destroyRedirectTo))
  | inl profile =>
      let quoted :=
        (dquote ++ template (profile_username profile) ++ dquote ++ " " ++ label)%string in
      await existingConnection <-
        read (connection_findUnique providerName (profile_id profile)) ;;
      await accountId <- getAccountId env request ;;
      match existingConnection, truthy accountId with
      | Some c, true =>
          if strict_eqb (connection_accountId c) accountId then
            ret (redirectWithToast connectionsRoute
              {| toast_title := "Already Connected";
                 toast_description :=
                   ("Your " ++ quoted ++ " account is already connected.")%string;
                 toast_type := None |}
              destroyRedirectTo)
          else
            ret (redirectWithToast connectionsRoute
              {| toast_title := "Already Connected";
                 toast_description :=
                   ("The " ++ quoted
                    ++ " account is already connected to another account.")%string;
                 toast_type := None |}
              destroyRedirectTo)
      | None, true =>
          await cid <- newId ;;
          transaction (connection_create
            {| connection_id := cid; providerName := providerName;
               providerId := profile_id profile;
               connection_accountId := accountId |}) ;;;
          ret (redirectWithToast connectionsRoute
            {| toast_title := "Connected";
               toast_description :=
                 ("Your " ++ quoted ++ " account has been connected.")%string;
               toast_type := Some "success" |}
            destroyRedirectTo)
      | Some c, false => makeSession env request (connection_accountId c) None []
      | None, false =>
          await user <- read (account_findUnique
            (ByEmail (toLowerCase P (profile_email profile)))) ;;
          match user with
          | Some u =>
              await cid <- newId ;;
              transaction (connection_create
                {| connection_id := cid; providerName := providerName;
                   providerId := profile_id profile;
                   connection_accountId := Some (account_id u) |}) ;;;
              makeSession env request (Some (account_id u)) None
                (createToastHeaders
                   {| toast_title := "Connected";
                      toast_description :=
                        ("Your " ++ quoted
                         ++ " account has been connected.")%string;
                      toast_type := None |})
          | None =>
              let verifySession :=
                {| onboardingEmail := Some (profile_email profile);
                   prefilledProfile := Some
                     {| profile_id := profile_id profile;
                        profile_email := normalizeEmail P (profile_email profile);
                        profile_username :=
                          option_map (normalizeUsername P)
                                     (profile_username profile);
                        profile_name := profile_name profile;
                        profile_imageUrl := profile_imageUrl profile |};
                   providerIdKey := Some (profile_id profile);
                   unverifiedSessionId := None;
                   rememberKey := None |} in
              let onboardingRedirect :=
                {| pathname := ("/onboarding/" ++ providerName)%string;
                   searchParams :=
                     if truthy redirectTo
                     then [("redirectTo", template redirectTo)]
                     else [] |} in
              ret (redirect onboardingRedirect
                     (CommitVerifySession verifySession :: destroyRedirectTo))
          end
      end
  end.

End Handlers.

(** ** A reference platform

    An instance of the collaborators on which the handlers run, used to
    evaluate them on concrete requests. *)

Module Reference.

Fixpoint tally (n : nat) : string :=
  match n with
  | O => EmptyString
  | S k => String "i" (tally k)
  end.

Definition tally_cuid (n : nat) : Id := String "c" (tally n).

Definition lower (c : ascii) : ascii :=
  let n := nat_of_ascii c in
  if ((65 <=? n) && (n <=? 90))%nat then ascii_of_nat (n + 32) else c.

Fixpoint ascii_toLowerCase (s : string) : string :=
  match s with
  | EmptyString => EmptyString
  | String c r => String (lower c) (ascii_toLowerCase r)
  end.

Fixpoint split (sep : ascii) (s : string) : list string :=
  match s with
  | EmptyString => [EmptyString]
  | String c r =>
      if Ascii.eqb c sep then EmptyString :: split sep r
      else match split sep r with
           | h :: t => String c h :: t
           | [] => [String c EmptyString]
           end
  end.

(** A salted hash that keeps the part after the salt comparable. *)
Definition salted_hash (password : string) (rounds salt : nat) : string :=
  (tally salt ++ "$" ++ password)%string.

Fixpoint after_salt (h : string) : string :=
  match h with
  | EmptyString => EmptyString
  | String c r => if Ascii.eqb c "$" then r else after_salt r
  end.

Definition salted_compare (password h : string) : bool :=
  (after_salt h =? password)%string.

(** Modelled from the spec: [user.ts] is not among the sources.  The
    permission string [action:entity:access] is parsed into its action,
    its entity and, when present, the comma-separated set of accesses. *)
Definition split_permission (permission : string) : PermissionData :=
  let parts := split ":" permission in
  {| pd_action := nth 0 parts EmptyString;
     pd_entity := nth 1 parts EmptyString;
     pd_access :=
       match nth_error parts 2 with
       | Some a => if truthy (Some a) then Some (split "," a) else None
       | None => None
       end |}.

Definition platform : Platform :=
  {| cuid := tally_cuid;
     bcrypt_hash := salted_hash;
     bcrypt_compare := salted_compare;
     toLowerCase := ascii_toLowerCase;
     normalizeEmail := ascii_toLowerCase;
     normalizeUsername := ascii_toLowerCase;
     ProviderNameSchema := fun p => (p =? "github")%string;
     providerLabels := fun _ => "GitHub";
     twoFAVerificationType := "2fa";
     parsePermissionString := split_permission |}.

(** A seeded database: the default organization and the role [user]
    with the permission to read one's own notes. *)
Definition seed : Store :=
  {| organizations := [ {| organization_id := "default" |} ];
     accounts := []; passwords := []; users := []; memberships := [];
     roles := [ {| role_id := "r-user"; role_name := "user" |} ];
     permissions := [ {| permission_id := "p-read"; action := "read";
                         entity := "note"; access := "own" |} ];
     sessions := []; connections := []; verifications := [];
     AccountToSession := []; MembershipToRole := [];
     RolePermissions := [ ("p-read", "r-user") ] |}.

Definition world (s : Store) : World :=
  {| db := s; console := []; entropy := O |}.

Definition env (t : Date) : Env :=
  {| now := t; isPrimary := true; ORGANIZATION_ID := None;
     authenticate := fun _ _ => inr "exchange failed" |}.

Definition request (sid : option Id) : Request :=
  {| cookie_sessionId := sid; cookie_redirectTo := None;
     url_pathname := "/settings"; url_search := EmptyString |}.

End Reference.

(** * Vocabulary of the properties *)

(** A session id resolves to an account at an instant when a session
    of that id has not expired, claims the account as its active one,
    and has it in its account set. *)
Definition resolves (s : Store) (t : Date) (sid a : Id) : Prop :=
  exists session,
    In session (sessions s)
    /\ session_id session = sid
    /\ t < expirationDate session
    /\ activeAccountId session = Some a
    /\ In a (map account_id (session_accounts s sid)).

(** The three ways a session id that is present can fail. *)
Definition session_unknown (s : Store) (sid : Id) : Prop :=
  forall session, In session (sessions s) -> session_id session <> sid.

Definition session_expired (s : Store) (t : Date) (sid : Id) : Prop :=
  forall session,
    In session (sessions s) -> session_id session = sid ->
    expirationDate session <= t.

Definition active_not_member (s : Store) (sid : Id) : Prop :=
  forall session a,
    In session (sessions s) -> session_id session = sid ->
    activeAccountId session = Some a ->
    ~ In a (map account_id (session_accounts s sid)).

Definition homeRedirect : Exn :=
  ThrownResponse (redirect (path "/") [DestroyAuthSession]).

(** Identifiers of accounts are generated, hence not empty. *)
Definition account_ids_nonempty (s : Store) : Prop :=
  forall a, In a (accounts s) -> account_id a <> EmptyString.

(** ** Worlds to run the handlers in *)

Module Scenario.

Definition idle_session : Id := Reference.tally_cuid 1.
Definition alice : Id := Reference.tally_cuid 2.
Definition alice_user : Id := Reference.tally_cuid 3.
Definition login_session : Id := Reference.tally_cuid 5.

(** Alice is registered in the seeded database: an account with e-mail
    and username in lower case, the hash of her password, a user of her
    own with a membership in the default organization that carries the
    role [user], and a session that holds her account in its account set
    and names no active account. *)
Definition registered : World :=
  {| db :=
       {| organizations := organizations Reference.seed;
          accounts := [ {| account_id := alice; account_email := "a@x.com";
                           account_username := "alice" |} ];
          passwords :=
            [ {| password_accountId := alice;
                 hash := Reference.salted_hash "secret123" 10 0 |} ];
          users := [ {| user_id := alice_user; user_accountId := alice;
                        user_name := "Alice A."; user_username := "alice";
                        user_email := "a@x.com" |} ];
          memberships :=
            [ {| membership_id := Reference.tally_cuid 4;
                 membership_userId := Some alice_user;
                 organizationId := "default" |} ];
          roles := roles Reference.seed;
          permissions := permissions Reference.seed;
          sessions := [ {| session_id := idle_session;
                           expirationDate := 1000 + SESSION_EXPIRATION_TIME;
                           activeAccountId := None |} ];
          connections := []; verifications := [];
          AccountToSession := [ (alice, idle_session) ];
          MembershipToRole := [ (Reference.tally_cuid 4, "r-user") ];
          RolePermissions := RolePermissions Reference.seed |};
     console := [];
     entropy := 5 |}.

(** She logs in at instant 2000. *)
Definition logged_in : World :=
  snd (login Reference.platform (Reference.env 2000) "alice" "secret123" registered).

Definition long_after : Date := 2000 + SESSION_EXPIRATION_TIME.

(** The provider vouches for [octocat], whose e-mail is Alice's, and
    for [newcomer], whom the database does not know. *)
Definition octocat : ProviderUser :=
  {| profile_id := "gh-1"; profile_email := "A@X.com";
     profile_username := Some "Octocat"; profile_name := None;
     profile_imageUrl := None |}.

Definition newcomer : ProviderUser :=
  {| profile_id := "gh-2"; profile_email := "New@Y.org";
     profile_username := Some "NewComer"; profile_name := Some "New Comer";
     profile_imageUrl := None |}.

Definition provider_env (t : Date) (answer : ProviderUser + string) : Env :=
  {| now := t; isPrimary := true; ORGANIZATION_ID := None;
     authenticate := fun _ _ => answer |}.

(** Alice, logged in, connects her provider account at instant 3000. *)
Definition linked : World :=
  snd (loader Reference.platform (provider_env 3000 (inl octocat))
         (Reference.request (Some login_session)) (Some "github") logged_in).

(** Later, with no cookie, the same provider account calls back. *)
Definition called_back : Outcome Response * World :=
  loader Reference.platform (provider_env 4000 (inl octocat))
    (Reference.request None) (Some "github") linked.

Definition callback_session : Id := Reference.tally_cuid 7.

(** Bob's user row carries the id of his account.  In [member_only] his
    role [user] comes with his membership in the default organization. *)
Definition bob_base : Store :=
  {| organizations := organizations Reference.seed;
     accounts := [ {| account_id := "bob"; account_email := "bob@x.com";
                      account_username := "bob" |} ];
     passwords := [];
     users := [ {| user_id := "bob"; user_accountId := "bob"; user_name := "Bob";
                   user_username := "bob"; user_email := "bob@x.com" |} ];
     memberships := [];
     roles := roles Reference.seed;
     permissions := permissions Reference.seed;
     sessions := [ {| session_id := "s-bob"; expirationDate := 9000;
                      activeAccountId := Some "bob" |} ];
     connections := []; verifications := [];
     AccountToSession := [ ("bob", "s-bob") ];
     MembershipToRole := [];
     RolePermissions := RolePermissions Reference.seed |}.

Definition member_only : World :=
  Reference.world
    (set_MembershipToRole
       (set_memberships bob_base
          [ {| membership_id := "m-bob"; membership_userId := Some "bob";
               organizationId := "default" |} ])
       [ ("m-bob", "r-user") ]).

Definition bob_request : Request := Reference.request (Some "s-bob").

(** A caller without session, with a pending redirect target. *)
Definition pending_request : Request :=
  {| cookie_sessionId := None; cookie_redirectTo := Some "/notes";
     url_pathname := "/auth/github/callback"; url_search := "?code=1&state=2" |}.

Definition alice_connection : Connection :=
  {| connection_id := Reference.tally_cuid 6; providerName := "github";
     providerId := "gh-1"; connection_accountId := Some alice |}.

End Scenario.

(** The user row of a given id holds a permission in an organization:
    one of its memberships there carries a role with a matching
    permission. *)
Definition user_holds (s : Store) (uid org : Id) (pd : PermissionData) : Prop :=
  exists u m r p,
    In u (users s) /\ user_id u = uid
    /\ In m (user_memberships s u) /\ organizationId m = org
    /\ In r (membership_roles s m)
    /\ In p (role_permissions s r)
    /\ permission_where pd p = true.

(** An account holds a permission in an organization through the users
    that belong to it. *)
Definition account_holds (s : Store) (aid org : Id) (pd : PermissionData) : Prop :=
  exists u,
    In u (users s) /\ user_accountId u = aid
    /\ user_holds s (user_id u) org pd.

Definition forbiddenPermission (pd : PermissionData) (permission : string) : Exn :=
  ThrownResponse (json
    (UnauthorizedPermission pd
       ("Unauthorized: required permissions: " ++ permission)%string) 403).

(** The callback answers with a redirect to the onboarding route of the
    provider. *)
Definition onboards (o : Outcome Response) (provider : string) : Prop :=
  exists query headers,
    o = Return (redirect {| pathname := ("/onboarding/" ++ provider)%string;
                            searchParams := query |} headers).


Definition set_db (w : World) (s : Store) : World :=
  {| db := s; console := console w; entropy := entropy w |}.

(** * The rest of [app/utils/auth.server.ts] *)

(** A write that cannot fail. *)
Definition write (f : Store -> Store) : M unit :=
  fun w => (Return tt, set_db w (f (db w))).

(** [prisma.session.deleteMany({ where: { id } })]; the rows of
    [_AccountToSession] that point to a deleted session go with it
    ([ON DELETE CASCADE]). *)
Definition session_deleteMany (sid : Id) (s : Store) : Store :=
  set_AccountToSession
    (set_sessions s
       (filter (fun x => negb (session_id x =? sid)%string) (sessions s)))
    (filter (fun p => negb (snd p =? sid)%string) (AccountToSession s)).

(** The nested [password: { update: { hash } }] of an account: the row
    must exist. *)
Definition password_update (aid : Id) (h : string) : Tx unit :=
  fun s =>
    if existsb (fun p => (password_accountId p =? aid)%string) (passwords s)
    then inr (tt, set_passwords s
                    (map (fun p =>
                            if (password_accountId p =? aid)%string
                            then {| password_accountId := password_accountId p;
                                    hash := h |}
                            else p)
                         (passwords s)))
    else inl (RecordNotFound "Password").

Record ResponseInit := {
  init_status : option Z;
  init_headers : list SetCookie }.

Section Account.

Variable P : Platform.

(** [safeRedirect] of [remix-utils]: the target it is given when that is
    a safe local path, the default otherwise. *)
Variable safeRedirect : string -> string.

Definition resetAccountPassword (username password : string) : M Account :=
  await hashedPassword <- getPasswordHash P password ;;
  transaction (fun s =>
    match account_findUnique (ByUsername username) s with
    | None => inl (RecordNotFound "Account")
    | Some a => (password_update (account_id a) hashedPassword >> tx_ret a) s
    end).

(** The delete of the session row is started, not awaited, and its
    failure is swallowed: [deleted] tells whether it took effect. *)
Definition logout (deleted : bool) (request : Request)
    (redirectTo : option string) (responseInit : option ResponseInit) : M unit :=
  let redirectTo := match redirectTo with Some r => r | None => "/" end in
  match cookie_sessionId request with
  | Some sessionId =>
      if truthy (Some sessionId) && deleted
      then write (session_deleteMany sessionId)
      else ret tt
  | None => ret tt
  end ;;;
  throw (ThrownResponse
    {| status :=
         match responseInit with
         | Some init =>
             match init_status init with Some st => st | None => 302 end
         | None => 302
         end;
       location := Some (path (safeRedirect redirectTo));
       setCookie :=
         DestroyAuthSession
         :: match responseInit with
            | Some init => init_headers init
            | None => []
            end;
       body := NoBody |}).

End Account.

(** ** Constraints of the migration, as invariants of the store *)


(** [Connection_providerName_providerId_key]. *)
Definition connection_key (c : Connection) : string * string :=
  (providerName c, providerId c).

Definition connections_unique (s : Store) : Prop :=
  NoDup (map connection_key (connections s)).

(** [_AccountToSession_B_fkey]: a row of the join table points to a
    session that exists. *)
Definition AccountToSession_B_fkey (s : Store) : Prop :=
  forall a sid,
    In (a, sid) (AccountToSession s) ->
    existsb (fun x => (session_id x =? sid)%string) (sessions s) = true.

(** What the callback never touches. *)
Definition callback_frame (w w' : World) : Prop :=
  organizations (db w') = organizations (db w)
  /\ accounts (db w') = accounts (db w)
  /\ passwords (db w') = passwords (db w)
  /\ users (db w') = users (db w)
  /\ memberships (db w') = memberships (db w)
  /\ roles (db w') = roles (db w)
  /\ permissions (db w') = permissions (db w)
  /\ verifications (db w') = verifications (db w)
  /\ AccountToSession (db w') = AccountToSession (db w)
  /\ MembershipToRole (db w') = MembershipToRole (db w)
  /\ RolePermissions (db w') = RolePermissions (db w).

(** How the callback may extend the two tables it writes. *)
Definition appended_connection (w w' : World) : Prop :=
  connections (db w') = connections (db w)
  \/ exists c,
       connections (db w') = connections (db w) ++ [c]
       /\ existsb (fun x => (providerName x =? providerName c)%string
                            && (providerId x =? providerId c)%string)
                  (connections (db w)) = false.

Definition appended_session (w w' : World) : Prop :=
  sessions (db w') = sessions (db w)
  \/ exists s,
       sessions (db w') = sessions (db w) ++ [s]
       /\ existsb (fun x => (session_id x =? session_id s)%string)
                  (sessions (db w)) = false.

Definition loginThrow (request : Request) (redirectTo : Optional string) : Exn :=
  ThrownResponse (redirect (loginRedirect request redirectTo) []).

Definition toastConnected (P : Platform) (provider : string)
    (profile : ProviderUser) (kind : option string) : Toast :=
  {| toast_title := "Connected";
     toast_description :=
       ("Your "
        ++ (dquote ++ template (profile_username profile) ++ dquote
            ++ " " ++ providerLabels P provider)
        ++ " account has been connected.")%string;
     toast_type := kind |}.

Definition toastAlreadyConnected (P : Platform) (provider : string)
    (profile : ProviderUser) (own : bool) : Toast :=
  {| toast_title := "Already Connected";
     toast_description :=
       if own
       then ("Your "
             ++ (dquote ++ template (profile_username profile) ++ dquote
                 ++ " " ++ providerLabels P provider)
             ++ " account is already connected.")%string
       else ("The "
             ++ (dquote ++ template (profile_username profile) ++ dquote
                 ++ " " ++ providerLabels P provider)
             ++ " account is already connected to another account.")%string;
     toast_type := None |}.

(** ** More worlds *)

Module Cases.

(** A path is safe when it starts with one slash. *)
Definition local_path (target : string) : string :=
  match target with
  | String "/" (String "/" _) => "/"
  | String "/" _ => target
  | _ => "/"
  end.

Definition login_request : Request :=
  Reference.request (Some Scenario.login_session).

Definition mallory : Id := Reference.tally_cuid 9.
Definition mallory_user : Id := Reference.tally_cuid 10.
Definition mallory_session : Id := Reference.tally_cuid 12.

(** Mallory is registered beside Alice, as Alice was ... *)
Definition mallory_registered : World :=
  let s := db Scenario.linked in
  {| db :=
       {| organizations := organizations s;
          accounts := accounts s
            ++ [ {| account_id := mallory; account_email := "m@z.net";
                    account_username := "mallory" |} ];
          passwords := passwords s
            ++ [ {| password_accountId := mallory;
                    hash := Reference.salted_hash "hunter2" 10 7 |} ];
          users := users s
            ++ [ {| user_id := mallory_user; user_accountId := mallory;
                    user_name := "Mallory M."; user_username := "mallory";
                    user_email := "m@z.net" |} ];
          memberships := memberships s
            ++ [ {| membership_id := Reference.tally_cuid 11;
                    membership_userId := Some mallory_user;
                    organizationId := "default" |} ];
          roles := roles s;
          permissions := permissions s;
          sessions := sessions s
            ++ [ {| session_id := Reference.tally_cuid 8;
                    expirationDate := 2400 + SESSION_EXPIRATION_TIME;
                    activeAccountId := None |} ];
          connections := connections s;
          verifications := verifications s;
          AccountToSession := AccountToSession s
            ++ [ (mallory, Reference.tally_cuid 8) ];
          MembershipToRole := MembershipToRole s
            ++ [ (Reference.tally_cuid 11, "r-user") ];
          RolePermissions := RolePermissions s |};
     console := console Scenario.linked;
     entropy := 12 |}.

(** ... and has a session of her own for her account. *)
Definition with_mallory : World :=
  snd (login Reference.platform (Reference.env 2500) "mallory" "hunter2"
         mallory_registered).

Definition mallory_request : Request :=
  Reference.request (Some mallory_session).

Definition alice_account : Account :=
  {| account_id := Scenario.alice; account_email := "a@x.com";
     account_username := "alice" |}.

(** Alice's password, reset while she is logged in. *)
Definition after_reset : World :=
  snd (resetAccountPassword Reference.platform "alice" "newpass"
         Scenario.logged_in).

(** Alice has logged out, and the delete has taken effect. *)
Definition logged_out : World :=
  snd (logout local_path true login_request None None Scenario.logged_in).

End Cases.

(** * Properties *)

Ltac conjs := repeat match goal with |- _ /\ _ => split end.

(** ** Resolution of the active account *)

Lemma truthy_Some (s : string) : truthy (Some s) = true <-> s <> EmptyString.
Proof.
  unfold truthy. destruct (String.eqb_spec s EmptyString); simpl; split;
    intros; congruence.
Qed.

Lemma option_eqb_eq (v : option string) (s : string) :
  option_eqb v s = true <-> v = Some s.
Proof.
  destruct v as [x|]; simpl.
  - rewrite String.eqb_eq. split; congruence.
  - split; discriminate.
Qed.

Lemma getAccountId_pure env request w : snd (getAccountId env request w) = w.
Proof.
  unfold getAccountId. destruct (cookie_sessionId request) as [sid|]; [|reflexivity].
  destruct (negb (truthy (Some sid))); [reflexivity|].
  unfold bind, read.
  destruct (session_findUnique_gt sid (now env) (db w)) as [session|]; [|reflexivity].
  destruct (find _ _); reflexivity.
Qed.

Lemma getAccountId_resolved env request w a :
  fst (getAccountId env request w) = Return (Some a) ->
  exists sid, cookie_sessionId request = Some sid
              /\ sid <> EmptyString
              /\ resolves (db w) (now env) sid a.
Proof.
  unfold getAccountId. destruct (cookie_sessionId request) as [sid|]; [|discriminate].
  destruct (truthy (Some sid)) eqn:Ht; [|discriminate]. simpl.
  unfold bind, read.
  destruct (session_findUnique_gt sid (now env) (db w)) as [session|] eqn:Hs;
    [|discriminate].
  destruct (find _ (session_accounts (db w) sid)) as [acc|] eqn:Ha; [|discriminate].
  simpl. intros [= <-].
  apply find_some in Hs as [Hin Hp]. apply andb_prop in Hp as [Hid Hexp].
  apply find_some in Ha as [Hacc Hact].
  exists sid. split; [reflexivity|]. split; [now apply truthy_Some|].
  exists session. repeat split.
  - exact Hin.
  - now apply String.eqb_eq.
  - now apply Z.ltb_lt.
  - now apply option_eqb_eq.
  - now apply in_map.
Qed.

Lemma getAccountId_unresolved env request w sid :
  cookie_sessionId request = Some sid ->
  sid <> EmptyString ->
  (forall a, ~ resolves (db w) (now env) sid a) ->
  getAccountId env request w = (Throw homeRedirect, w).
Proof.
  intros Hc Hne Hno. unfold getAccountId. rewrite Hc.
  apply truthy_Some in Hne. rewrite Hne. simpl. unfold bind, read.
  destruct (session_findUnique_gt sid (now env) (db w)) as [session|] eqn:Hs;
    [|reflexivity].
  destruct (find _ (session_accounts (db w) sid)) as [acc|] eqn:Ha; [|reflexivity].
  exfalso. apply (Hno (account_id acc)).
  apply find_some in Hs as [Hin Hp]. apply andb_prop in Hp as [Hid Hexp].
  apply find_some in Ha as [Hacc Hact].
  exists session. repeat split.
  - exact Hin.
  - now apply String.eqb_eq.
  - now apply Z.ltb_lt.
  - now apply option_eqb_eq.
  - now apply in_map.
Qed.

Lemma getAccountId_null env request w :
  fst (getAccountId env request w) = Return None <->
  truthy (cookie_sessionId request) = false.
Proof.
  unfold getAccountId. destruct (cookie_sessionId request) as [sid|].
  - destruct (truthy (Some sid)) eqn:Ht; simpl; [|tauto].
    unfold bind, read.
    destruct (session_findUnique_gt sid (now env) (db w)); simpl.
    + destruct (find _ _); simpl; split; discriminate.
    + split; discriminate.
  - simpl. tauto.
Qed.

(** C1. [getAccountId] returns an account id only for a session id, read
    from the cookie, of a session that expires strictly in the future and
    whose active account is in its account set; a session past its
    expiration is never resolved although its row exists; and a session
    id that is present and fails the checks has the cookie destroyed and
    the caller redirected to the home route. *)
Theorem getAccountId_fails_closed env request w :
  (forall a,
     fst (getAccountId env request w) = Return (Some a) ->
     exists sid, cookie_sessionId request = Some sid
                 /\ resolves (db w) (now env) sid a)
  /\ (forall sid,
        cookie_sessionId request = Some sid ->
        session_expired (db w) (now env) sid ->
        forall a, fst (getAccountId env request w) <> Return (Some a))
  /\ (forall sid,
        cookie_sessionId request = Some sid ->
        sid <> EmptyString ->
        (forall a, ~ resolves (db w) (now env) sid a) ->
        getAccountId env request w = (Throw homeRedirect, w)).
Proof.
  split; [|split].
  - intros a H. destruct (getAccountId_resolved _ _ _ _ H) as (sid & Hc & _ & Hr).
    now exists sid.
  - intros sid Hc Hexp a H.
    destruct (getAccountId_resolved _ _ _ _ H) as (sid' & Hc' & _ & Hr).
    rewrite Hc in Hc'. injection Hc' as <-.
    destruct Hr as (session & Hin & Hid & Hlt & _).
    specialize (Hexp session Hin Hid). lia.
  - intros sid Hc Hne Hno. now apply getAccountId_unresolved with sid.
Qed.

(** At the very instant its session expires, Alice's cookie no longer
    resolves and is destroyed. *)
Lemma getAccountId_fails_closed_witness :
  getAccountId (Reference.env Scenario.long_after)
    (Reference.request (Some Scenario.login_session)) Scenario.logged_in
  = (Throw homeRedirect, Scenario.logged_in).
Proof.
  apply (proj2 (proj2 (getAccountId_fails_closed
           (Reference.env Scenario.long_after)
           (Reference.request (Some Scenario.login_session))
           Scenario.logged_in)) Scenario.login_session).
  - reflexivity.
  - discriminate.
  - intros a (session & Hin & Hid & Hlt & _).
    vm_compute in Hin. destruct Hin as [<-|[<-|[]]].
    + discriminate Hid.
    + vm_compute in Hlt. discriminate Hlt.
Defined.

(** C9. [getAccountId] returns null only when the auth cookie carries no
    session id (none, or the empty string, which is no identifier); a
    session id that is present but unknown, expired, or whose active
    account is not in the account set makes it throw the redirect to the
    home route with the cookie destroyed, not return null; hence
    [requireAccountId] throws its redirect to the login route, with the
    [redirectTo] parameter, only for a cookie without session id. *)
Theorem getAccountId_null_only_without_session_id env request w :
  (fst (getAccountId env request w) = Return None <->
   truthy (cookie_sessionId request) = false)
  /\ (forall sid,
        cookie_sessionId request = Some sid ->
        sid <> EmptyString ->
        session_unknown (db w) sid
        \/ session_expired (db w) (now env) sid
        \/ active_not_member (db w) sid ->
        getAccountId env request w = (Throw homeRedirect, w))
  /\ (account_ids_nonempty (db w) ->
      forall redirectTo,
        fst (requireAccountId env request redirectTo w)
        = Throw (ThrownResponse (redirect (loginRedirect request redirectTo) []))
        <-> truthy (cookie_sessionId request) = false).
Proof.
  split; [apply getAccountId_null|split].
  - intros sid Hc Hne Hfail. apply getAccountId_unresolved with sid; trivial.
    intros a (session & Hin & Hid & Hlt & Hact & Hmem).
    destruct Hfail as [Hu|[He|Hm]].
    + now apply (Hu session).
    + specialize (He session Hin Hid). lia.
    + now apply (Hm session a).
  - intros Hids redirectTo. unfold requireAccountId, bind.
    destruct (getAccountId env request w) as [[[a|]|e] w'] eqn:Hg.
    + assert (Ha : fst (getAccountId env request w) = Return (Some a))
        by now rewrite Hg.
      destruct (getAccountId_resolved _ _ _ _ Ha) as (sid & Hc & Hne & Hr).
      destruct Hr as (session & _ & _ & _ & _ & Hmem).
      apply in_map_iff in Hmem as (acc & <- & Hacc).
      apply filter_In in Hacc as [Hacc _].
      apply Hids in Hacc. apply truthy_Some in Hacc. rewrite Hacc.
      rewrite Hc. apply truthy_Some in Hne. rewrite Hne. split; discriminate.
    + assert (Hn : fst (getAccountId env request w) = Return None)
        by now rewrite Hg.
      apply getAccountId_null in Hn. rewrite Hn. simpl. tauto.
    + assert (Hn : fst (getAccountId env request w) <> Return None)
        by (rewrite Hg; discriminate).
      rewrite getAccountId_null in Hn.
      destruct (truthy (cookie_sessionId request)); [|congruence].
      simpl. split; [|discriminate].
      intros [= ->]. revert Hg. clear.
      unfold getAccountId. destruct (cookie_sessionId request) as [sid|];
        [|discriminate].
      destruct (negb (truthy (Some sid))); [discriminate|].
      unfold bind, read.
      destruct (session_findUnique_gt _ _ _); [destruct (find _ _)|];
        simpl; intros [= H]; revert H; unfold redirect, loginRedirect, path;
        intros [= H1 H2]; discriminate.
Qed.

(** With or without a session id, [requireAccountId] told apart. *)
Lemma getAccountId_null_only_without_session_id_witness :
  getAccountId (Reference.env 3000)
    (Reference.request (Some Scenario.idle_session)) Scenario.logged_in
  = (Throw homeRedirect, Scenario.logged_in)
  /\ fst (requireAccountId (Reference.env 3000) (Reference.request None)
            Undefined Scenario.logged_in)
     = Throw (ThrownResponse (redirect
         {| pathname := "/login"; searchParams := [("redirectTo", "/settings")] |}
         [])).
Proof.
  pose proof (getAccountId_null_only_without_session_id (Reference.env 3000)
    (Reference.request (Some Scenario.idle_session)) Scenario.logged_in)
    as (_ & Hthrow & _).
  pose proof (getAccountId_null_only_without_session_id (Reference.env 3000)
    (Reference.request None) Scenario.logged_in) as (_ & _ & Hlogin).
  split.
  - apply (Hthrow Scenario.idle_session); [reflexivity|discriminate|].
    right. right. intros session a Hin Hid Hact.
    vm_compute in Hin. destruct Hin as [<-|[<-|[]]]; discriminate.
  - apply Hlogin; [|reflexivity].
    intros a Hin. vm_compute in Hin. destruct Hin as [<-|[]]. discriminate.
Defined.

(** ** Signing up and verifying a password *)

Section SignupProperties.

Variable P : Platform.

Lemma find_app_fresh {A} (f : A -> bool) (l : list A) (x : A) :
  existsb f l = false -> f x = true -> find f (l ++ [x]) = Some x.
Proof.
  induction l as [|y l IH]; simpl; intros Hl Hx.
  - now rewrite Hx.
  - apply orb_false_elim in Hl as [Hy Hl]. rewrite Hy. now apply IH.
Qed.

Lemma joined_app_fresh (t : list (Id * Id)) (a b : Id) :
  joined (t ++ [(a, b)]) a b = true.
Proof.
  unfold joined. rewrite existsb_app. simpl. unfold pair_eqb. simpl.
  rewrite !String.eqb_refl. simpl. now rewrite orb_true_r.
Qed.

Lemma verifyAccountPassword_pure where_ password w :
  snd (verifyAccountPassword P where_ password w) = w.
Proof.
  unfold verifyAccountPassword, bind, read.
  destruct (account_findUnique where_ (db w)) as [a|]; [|reflexivity].
  destruct (account_password (db w) a) as [pw|]; [|reflexivity]. simpl.
  destruct (bcrypt_compare P password (hash pw)); reflexivity.
Qed.


(** The user that [signup] asks for has a name and neither username nor
    e-mail: the call is refused once the password is hashed, before an
    identifier is drawn or a row written. *)
Lemma signup_rejected env email username password name w :
  signup P env email username password name w
  = (Throw (PrismaClientError (MissingArguments "User" ["username"; "email"])),
     {| db := db w; console := console w; entropy := S (entropy w) |}).
Proof.
  reflexivity.
Qed.

Lemma signup_writes_nothing env email username password name w :
  db (snd (signup P env email username password name w)) = db w.
Proof.
  now rewrite signup_rejected.
Qed.

(** C6 (the code departs from the claim).  [signup] creates nothing.
    Its nested write gives the user a name only, while the migration
    requires a username and an e-mail of every user as well; so the
    call is refused whatever the e-mail, username, password and name
    are, and neither session, account, password, user nor membership is
    added.  Of the claim the last clause alone holds: no partial state
    is persisted. *)
Theorem signup_creates_nothing env email username password name w :
  fst (signup P env email username password name w)
  = Throw (PrismaClientError (MissingArguments "User" ["username"; "email"]))
  /\ db (snd (signup P env email username password name w)) = db w
  /\ console (snd (signup P env email username password name w)) = console w
  /\ signup Reference.platform (Reference.env 1000)
       "A@X.com" "Alice" "secret123" "Alice A." (Reference.world Reference.seed)
     = (Throw (PrismaClientError (MissingArguments "User" ["username"; "email"])),
        {| db := Reference.seed; console := []; entropy := 1 |}).
Proof.
  rewrite signup_rejected. conjs; reflexivity.
Qed.

End SignupProperties.

Lemma salted_compare_hash p rounds salt :
  Reference.salted_compare p (Reference.salted_hash p rounds salt) = true.
Proof.
  unfold Reference.salted_compare, Reference.salted_hash.
  induction salt as [|k IH]; simpl.
  - apply String.eqb_refl.
  - exact IH.
Qed.


(** ** Sessions made by the OAuth callback *)

Section SessionCreation.

Variable P : Platform.

Lemma makeSession_AccountToSession env request a r headers w :
  AccountToSession (db (snd (makeSession P env request a r headers w)))
  = AccountToSession (db w).
Proof.
  unfold makeSession, handleNewSession, newId, bind, draw, ret, transaction,
    session_create, read. simpl.
  destruct (existsb _ (sessions (db w))); simpl; [reflexivity|].
  destruct a as [a|]; simpl; [|reflexivity].
  match goal with
  | |- context [verification_findUnique ?t ?ty ?st] =>
      destruct (verification_findUnique t ty st)
  end; reflexivity.
Qed.

Lemma login_AccountToSession env username password w session accs w' :
  login P env username password w = (Return (Some (session, accs)), w') ->
  exists id,
    fst (verifyAccountPassword P (ByUsername username) password w) = Return (Some id)
    /\ activeAccountId session = Some id
    /\ expirationDate session = now env + SESSION_EXPIRATION_TIME
    /\ AccountToSession (db w')
       = AccountToSession (db w) ++ [(id, session_id session)].
Proof.
  unfold login, bind.
  pose proof (verifyAccountPassword_pure P (ByUsername username) password w) as Hp.
  destruct (verifyAccountPassword P (ByUsername username) password w)
    as [[[id|]|e] w1]; simpl in Hp; subst w1; try discriminate.
  unfold newId, bind, draw, ret, transaction, tx_bind, session_create,
    session_connect_account. simpl.
  destruct (existsb _ (sessions (db w))); [discriminate|]. simpl.
  destruct (negb _); [discriminate|]. simpl.
  intros [= <- <- <-]. exists id. simpl. auto.
Qed.

End SessionCreation.

(** C2 (the code departs from the claim).  The session the callback makes
    for a known connection and a caller without cookie has the expiration
    and the active account of a login session, but no account in its
    account set, where [login] connects the account: the new cookie does
    not resolve, that of a login does. *)
Theorem makeSession_connects_no_account :
  fst Scenario.called_back
  = Return (redirect (path "/")
      [CommitAuthSession Scenario.callback_session
         (Some (4000 + SESSION_EXPIRATION_TIME));
       DestroyRedirectTo])
  /\ sessions (db (snd Scenario.called_back))
     = sessions (db Scenario.linked)
       ++ [{| session_id := Scenario.callback_session;
              expirationDate := 4000 + SESSION_EXPIRATION_TIME;
              activeAccountId := Some Scenario.alice |}]
  /\ session_accounts (db (snd Scenario.called_back)) Scenario.callback_session = []
  /\ getAccountId (Reference.env 5000)
       (Reference.request (Some Scenario.callback_session))
       (snd Scenario.called_back)
     = (Throw homeRedirect, snd Scenario.called_back)
  /\ map account_id (session_accounts (db Scenario.logged_in) Scenario.login_session)
     = [Scenario.alice]
  /\ getAccountId (Reference.env 5000)
       (Reference.request (Some Scenario.login_session)) Scenario.logged_in
     = (Return (Some Scenario.alice), Scenario.logged_in).
Proof.
  repeat match goal with |- _ /\ _ => split end; vm_compute; reflexivity.
Qed.

(** ** Authorization *)

Section Authorization.

Variable P : Platform.

Lemma requireAccountId_pure env request redirectTo w :
  snd (requireAccountId env request redirectTo w) = w.
Proof.
  unfold requireAccountId, bind.
  pose proof (getAccountId_pure env request w) as Hp.
  destruct (getAccountId env request w) as [[[a|]|e] w1]; simpl in Hp; subst w1;
    try reflexivity.
  destruct (truthy (Some a)); reflexivity.
Qed.

Lemma user_where_permission_holds s uid org pd :
  (exists u, In u (users s) /\ user_where_permission s uid org pd u = true)
  <-> user_holds s uid org pd.
Proof.
  unfold user_where_permission, user_holds. split.
  - intros (u & Hu & Hw).
    apply andb_prop in Hw as [Hid Hm]. apply String.eqb_eq in Hid.
    apply existsb_exists in Hm as (m & Hm & Hw).
    apply andb_prop in Hw as [Horg Hr]. apply String.eqb_eq in Horg.
    apply existsb_exists in Hr as (r & Hr & Hp).
    apply existsb_exists in Hp as (p & Hp & Hw).
    exists u, m, r, p. auto 10.
  - intros (u & m & r & p & Hu & Hid & Hm & Horg & Hr & Hp & Hw).
    exists u. split; [assumption|].
    apply andb_true_intro. split; [now apply String.eqb_eq|].
    apply existsb_exists. exists m. split; [assumption|].
    apply andb_true_intro. split; [now apply String.eqb_eq|].
    apply existsb_exists. exists r. split; [assumption|].
    apply existsb_exists. now exists p.
Qed.

Lemma find_Some_iff {A} (f : A -> bool) (l : list A) :
  (exists x, find f l = Some x) <-> (exists x, In x l /\ f x = true).
Proof.
  split.
  - intros (x & Hx). exists x. now apply find_some in Hx.
  - intros (x & Hin & Hf). destruct (find f l) as [y|] eqn:E; [now exists y|].
    now rewrite (find_none _ _ E x Hin) in Hf.
Qed.

(** What [requireUserWithPermission] decides, for a caller whose account
    id is [id]: whether the user row of id [id] holds the permission. *)
Lemma requireUserWithPermission_decides env request permission w id :
  fst (requireAccountId env request Undefined w) = Return id ->
  let pd := parsePermissionString P permission in
  (user_holds (db w) id (organizationScope env) pd ->
   requireUserWithPermission P env request permission w = (Return id, w))
  /\ (~ user_holds (db w) id (organizationScope env) pd ->
      requireUserWithPermission P env request permission w
      = (Throw (forbiddenPermission pd permission), w)).
Proof.
  intros Hid pd. unfold requireUserWithPermission, bind, read, user_findFirst.
  pose proof (requireAccountId_pure env request Undefined w) as Hp.
  destruct (requireAccountId env request Undefined w) as [[i|e] w1];
    simpl in Hid, Hp; subst w1; [|discriminate]. injection Hid as ->.
  fold pd. split; intros H.
  - apply user_where_permission_holds, find_Some_iff in H as (u & Hu).
    rewrite Hu. apply find_some in Hu as [_ Hw].
    apply andb_prop in Hw as [Hw _]. apply String.eqb_eq in Hw. now rewrite Hw.
  - destruct (find _ (users (db w))) as [u|] eqn:E; [|reflexivity].
    exfalso. apply H, user_where_permission_holds, find_Some_iff. now exists u.
Qed.

End Authorization.


(** C4 (the code departs from the claim).  Alice's account holds the
    permission to read her own notes: her user has a membership in the
    default organization with the role [user], which has it.  Her
    session resolves to her account, yet [requireUserWithPermission]
    throws the 403 response: it looks for a user row whose id is the
    account id, and her user row has an id of its own. *)
Theorem requireUserWithPermission_denies_member_account :
  let pd := {| pd_action := "read"; pd_entity := "note";
               pd_access := Some ["own"] |} in
  let request := Reference.request (Some Scenario.login_session) in
  parsePermissionString Reference.platform "read:note:own" = pd
  /\ account_holds (db Scenario.logged_in) Scenario.alice "default" pd
  /\ fst (requireAccountId (Reference.env 3000) request Undefined Scenario.logged_in)
     = Return Scenario.alice
  /\ requireUserWithPermission Reference.platform (Reference.env 3000) request
       "read:note:own" Scenario.logged_in
     = (Throw (forbiddenPermission pd "read:note:own"), Scenario.logged_in).
Proof.
  intros pd request. conjs; try (vm_compute; reflexivity).
  exists {| user_id := Scenario.alice_user; user_accountId := Scenario.alice;
            user_name := "Alice A."; user_username := "alice";
            user_email := "a@x.com" |}.
  conjs; try (vm_compute; auto; fail).
  exists {| user_id := Scenario.alice_user; user_accountId := Scenario.alice;
            user_name := "Alice A."; user_username := "alice";
            user_email := "a@x.com" |},
         {| membership_id := Reference.tally_cuid 4;
            membership_userId := Some Scenario.alice_user;
            organizationId := "default" |},
         {| role_id := "r-user"; role_name := "user" |},
         {| permission_id := "p-read"; action := "read"; entity := "note";
            access := "own" |}.
  conjs; vm_compute; auto.
Qed.

Lemma getAccountId_reads env request w1 w2 :
  sessions (db w1) = sessions (db w2) ->
  accounts (db w1) = accounts (db w2) ->
  AccountToSession (db w1) = AccountToSession (db w2) ->
  fst (getAccountId env request w1) = fst (getAccountId env request w2).
Proof.
  intros Hs Ha Hj. unfold getAccountId.
  destruct (cookie_sessionId request) as [sid|]; [|reflexivity].
  destruct (negb (truthy (Some sid))); [reflexivity|].
  unfold bind, read, session_findUnique_gt, session_accounts.
  rewrite Hs, Ha, Hj.
  destruct (find _ (sessions (db w2))) as [session|]; [|reflexivity].
  destruct (find _ (filter _ (accounts (db w2)))); reflexivity.
Qed.





(** ** The OAuth callback *)

Section Callback.

Variable P : Platform.

Lemma find_none_iff {A} (f : A -> bool) (l : list A) :
  find f l = None <-> forall x, In x l -> f x = false.
Proof.
  split; [apply find_none|].
  intros H. destruct (find f l) as [x|] eqn:E; [|reflexivity].
  apply find_some in E as [Hin Hf]. now rewrite (H x Hin) in Hf.
Qed.

(** C7. When the code exchange with the provider fails, the callback
    logs the error once and throws the redirect to the login route with
    a toast of kind [error] and the header that destroys the pending
    redirect target; what is thrown is that response, not the error of
    the exchange, and the database is untouched. *)
Theorem loader_exchange_failure env request provider error w :
  isPrimary env = true ->
  ProviderNameSchema P provider = true ->
  authenticate env provider request = inr error ->
  loader P env request (Some provider) w
  = (Throw (ThrownResponse
       {| status := 302;
          location := Some {| pathname := "/login"; searchParams := [] |};
          setCookie :=
            [DestroyRedirectTo;
             ToastCookie
               {| toast_title := "Auth Failed";
                  toast_description :=
                    ("There was an error authenticating with "
                     ++ providerLabels P provider ++ ".")%string;
                  toast_type := Some "error" |}];
          body := NoBody |}),
     {| db := db w; console := console w ++ [error]; entropy := entropy w |}).
Proof.
  intros Hprimary Hname Hauth.
  unfold loader, ensurePrimary, ProviderNameSchema_parse, bind.
  rewrite Hprimary, Hname. simpl. rewrite Hauth. reflexivity.
Qed.

(** C5. When the connection of the provider identity belongs to the
    account of the authenticated caller, the callback answers with the
    redirect to the connections route and the toast that the account is
    already connected, and leaves the world as it was: however often it
    is repeated, the answer is the same and no connection is added. *)
Theorem loader_already_connected env request provider profile c a w :
  isPrimary env = true ->
  ProviderNameSchema P provider = true ->
  authenticate env provider request = inl profile ->
  connection_findUnique provider (profile_id profile) (db w) = Some c ->
  connection_accountId c = Some a ->
  fst (getAccountId env request w) = Return (Some a) ->
  a <> EmptyString ->
  let response :=
    {| status := 302;
       location := Some {| pathname := "/settings/profile/connections";
                           searchParams := [] |};
       setCookie :=
         [DestroyRedirectTo;
          ToastCookie
            {| toast_title := "Already Connected";
               toast_description :=
                 ("Your "
                  ++ (dquote ++ template (profile_username profile) ++ dquote
                      ++ " " ++ providerLabels P provider)
                  ++ " account is already connected.")%string;
               toast_type := None |}];
       body := NoBody |} in
  loader P env request (Some provider) w = (Return response, w)
  /\ forall n,
       let w' := Nat.iter n (fun x => snd (loader P env request (Some provider) x)) w in
       w' = w
       /\ loader P env request (Some provider) w' = (Return response, w)
       /\ connections (db w') = connections (db w).
Proof.
  intros Hprimary Hname Hauth Hconn Hacc Hget Hne response.
  assert (Hrun : loader P env request (Some provider) w = (Return response, w)).
  { unfold loader, ensurePrimary, ProviderNameSchema_parse, bind.
    rewrite Hprimary, Hname. simpl. rewrite Hauth. unfold read. rewrite Hconn.
    pose proof (getAccountId_pure env request w) as Hp.
    destruct (getAccountId env request w) as [o w1]. simpl in Hget, Hp.
    subst o w1. apply truthy_Some in Hne. rewrite Hne, Hacc. simpl.
    rewrite String.eqb_refl. unfold ret, redirectWithToast, response.
    reflexivity. }
  split; [exact Hrun|].
  intros n. induction n as [|k IH]; simpl.
  - auto.
  - destruct IH as (-> & _ & _). rewrite Hrun. simpl. auto.
Qed.

(** C8, amended.  With no connection for the provider identity, an auth
    cookie that carries no session id, and no account under the
    profile's e-mail in lower case, the callback stores the profile, its
    e-mail and username normalized, and the provider id in the
    verification-flow session, leaves the auth session alone, and
    redirects to the onboarding route of the provider, with [redirectTo]
    as query parameter exactly when a redirect target was pending; the
    redirect-target cookie is destroyed. *)
Theorem loader_onboarding env request provider profile w :
  isPrimary env = true ->
  ProviderNameSchema P provider = true ->
  authenticate env provider request = inl profile ->
  (forall c, In c (connections (db w)) ->
             providerName c = provider -> providerId c <> profile_id profile) ->
  truthy (cookie_sessionId request) = false ->
  (forall a, In a (accounts (db w)) ->
             account_email a <> toLowerCase P (profile_email profile)) ->
  loader P env request (Some provider) w
  = (Return
       {| status := 302;
          location := Some
            {| pathname := ("/onboarding/" ++ provider)%string;
               searchParams :=
                 match cookie_redirectTo request with
                 | Some target =>
                     if (target =? EmptyString)%string then []
                     else [("redirectTo", target)]
                 | None => []
                 end |};
          setCookie :=
            [CommitVerifySession
               {| onboardingEmail := Some (profile_email profile);
                  prefilledProfile := Some
                    {| profile_id := profile_id profile;
                       profile_email := normalizeEmail P (profile_email profile);
                       profile_username :=
                         option_map (normalizeUsername P) (profile_username profile);
                       profile_name := profile_name profile;
                       profile_imageUrl := profile_imageUrl profile |};
                  providerIdKey := Some (profile_id profile);
                  unverifiedSessionId := None;
                  rememberKey := None |};
             DestroyRedirectTo];
          body := NoBody |},
     w).
Proof.
  intros Hprimary Hname Hauth Hconn Hcookie Hmail.
  apply getAccountId_null with (env := env) (w := w) in Hcookie as Hget.
  assert (Hc : connection_findUnique provider (profile_id profile) (db w) = None).
  { apply find_none_iff. intros c Hin.
    destruct (String.eqb_spec (providerName c) provider) as [Hp|]; [|reflexivity].
    destruct (String.eqb_spec (providerId c) (profile_id profile)) as [Hi|];
      [|reflexivity].
    now destruct (Hconn c Hin Hp). }
  assert (Ha : account_findUnique
                 (ByEmail (toLowerCase P (profile_email profile))) (db w) = None).
  { apply find_none_iff. intros a Hin. simpl.
    apply String.eqb_neq. now apply Hmail. }
  unfold loader, ensurePrimary, ProviderNameSchema_parse, bind.
  rewrite Hprimary, Hname. simpl. rewrite Hauth. unfold read. rewrite Hc.
  pose proof (getAccountId_pure env request w) as Hp.
  destruct (getAccountId env request w) as [o w1]. simpl in Hget, Hp.
  subst o w1. simpl. rewrite Ha. unfold ret, redirect, getRedirectCookieValue.
  destruct (cookie_redirectTo request) as [target|]; simpl; [|reflexivity].
  destruct (target =? EmptyString)%string; reflexivity.
Qed.

End Callback.

(** A failed exchange, for a caller without cookie. *)
Lemma loader_exchange_failure_witness :
  loader Reference.platform (Reference.env 3000) (Reference.request None)
    (Some "github") Scenario.logged_in
  = (Throw (ThrownResponse
       {| status := 302;
          location := Some {| pathname := "/login"; searchParams := [] |};
          setCookie :=
            [DestroyRedirectTo;
             ToastCookie
               {| toast_title := "Auth Failed";
                  toast_description := "There was an error authenticating with GitHub.";
                  toast_type := Some "error" |}];
          body := NoBody |}),
     {| db := db Scenario.logged_in; console := ["exchange failed"];
        entropy := entropy Scenario.logged_in |}).
Proof.
  exact (loader_exchange_failure Reference.platform (Reference.env 3000)
           (Reference.request None) "github" "exchange failed"
           Scenario.logged_in eq_refl eq_refl eq_refl).
Defined.

(** Alice calls back with the provider account she has connected. *)
Lemma loader_already_connected_witness :
  loader Reference.platform (Scenario.provider_env 4000 (inl Scenario.octocat))
    (Reference.request (Some Scenario.login_session)) (Some "github")
    Scenario.linked
  = (Return
       {| status := 302;
          location := Some {| pathname := "/settings/profile/connections";
                              searchParams := [] |};
          setCookie :=
            [DestroyRedirectTo;
             ToastCookie
               {| toast_title := "Already Connected";
                  toast_description :=
                    ("Your " ++ dquote ++ "Octocat" ++ dquote
                     ++ " GitHub account is already connected.")%string;
                  toast_type := None |}];
          body := NoBody |},
     Scenario.linked).
Proof.
  assert (Hc : connection_findUnique "github" "gh-1" (db Scenario.linked)
               = Some Scenario.alice_connection) by (vm_compute; reflexivity).
  assert (Hg : fst (getAccountId (Scenario.provider_env 4000 (inl Scenario.octocat))
                      (Reference.request (Some Scenario.login_session))
                      Scenario.linked)
               = Return (Some Scenario.alice)) by (vm_compute; reflexivity).
  assert (Hne : Scenario.alice <> EmptyString) by discriminate.
  exact (proj1 (loader_already_connected Reference.platform
                  (Scenario.provider_env 4000 (inl Scenario.octocat))
                  (Reference.request (Some Scenario.login_session))
                  "github" Scenario.octocat Scenario.alice_connection
                  Scenario.alice Scenario.linked
                  eq_refl eq_refl eq_refl Hc eq_refl Hg Hne)).
Defined.

(** A newcomer calls back, a redirect target pending. *)
Lemma loader_onboarding_witness :
  loader Reference.platform (Scenario.provider_env 4000 (inl Scenario.newcomer))
    Scenario.pending_request (Some "github") Scenario.linked
  = (Return
       {| status := 302;
          location := Some {| pathname := "/onboarding/github";
                              searchParams := [("redirectTo", "/notes")] |};
          setCookie :=
            [CommitVerifySession
               {| onboardingEmail := Some "New@Y.org";
                  prefilledProfile := Some
                    {| profile_id := "gh-2"; profile_email := "new@y.org";
                       profile_username := Some "newcomer";
                       profile_name := Some "New Comer";
                       profile_imageUrl := None |};
                  providerIdKey := Some "gh-2";
                  unverifiedSessionId := None;
                  rememberKey := None |};
             DestroyRedirectTo];
          body := NoBody |},
     Scenario.linked).
Proof.
  apply (loader_onboarding Reference.platform
           (Scenario.provider_env 4000 (inl Scenario.newcomer))
           Scenario.pending_request "github" Scenario.newcomer Scenario.linked).
  - reflexivity.
  - reflexivity.
  - reflexivity.
  - intros c Hin _. vm_compute in Hin. destruct Hin as [<-|[]]. discriminate.
  - reflexivity.
  - intros a Hin. vm_compute in Hin. destruct Hin as [<-|[]]. discriminate.
Defined.

(** C8 as stated fails for a caller who is not authenticated because
    the session of the cookie has expired: no connection, no account
    under the e-mail, no account the session resolves to, and yet no
    onboarding; the caller is sent to the home route, the cookie
    destroyed. *)
Lemma loader_stale_cookie_is_not_onboarded :
  let env := Scenario.provider_env Scenario.long_after (inl Scenario.newcomer) in
  let request := Reference.request (Some Scenario.login_session) in
  let w := Scenario.linked in
  (forall c, In c (connections (db w)) ->
             providerName c = "github" ->
             providerId c <> profile_id Scenario.newcomer)
  /\ (forall a, ~ resolves (db w) (now env) Scenario.login_session a)
  /\ (forall a, In a (accounts (db w)) ->
                account_email a
                <> toLowerCase Reference.platform (profile_email Scenario.newcomer))
  /\ loader Reference.platform env request (Some "github") w
     = (Throw homeRedirect, w)
  /\ ~ onboards (fst (loader Reference.platform env request (Some "github") w))
                "github".
Proof.
  intros env request w.
  assert (Hrun : loader Reference.platform env request (Some "github") w
                 = (Throw homeRedirect, w)) by (vm_compute; reflexivity).
  conjs.
  - intros c Hin _. vm_compute in Hin. destruct Hin as [<-|[]]. discriminate.
  - intros a (session & Hin & Hid & Hlt & _).
    vm_compute in Hin. destruct Hin as [<-|[<-|[]]].
    + discriminate Hid.
    + vm_compute in Hlt. discriminate Hlt.
  - intros a Hin. vm_compute in Hin. destruct Hin as [<-|[]]. discriminate.
  - exact Hrun.
  - rewrite Hrun. intros (query & headers & H). discriminate H.
Qed.

(** * Further properties *)

(** ** Logging in *)

Section Login.

Variable P : Platform.

Lemma existsb_find_none {A} (f : A -> bool) (l : list A) :
  existsb f l = false <-> find f l = None.
Proof.
  induction l as [|x l IH]; simpl; [tauto|].
  destruct (f x); simpl; [split; discriminate|exact IH].
Qed.

Lemma existsb_find_none_false {A} (f : A -> bool) (l : list A) :
  existsb f l = true -> exists x, find f l = Some x.
Proof.
  intros H. destruct (find f l) as [x|] eqn:E; [now exists x|].
  apply existsb_find_none in E. congruence.
Qed.

Lemma existsb_false_In {A} (f : A -> bool) (l : list A) (x : A) :
  existsb f l = false -> In x l -> f x = false.
Proof.
  intros H Hin. destruct (f x) eqn:E; [|reflexivity].
  assert (existsb f l = true) by (apply existsb_exists; eauto). congruence.
Qed.

(** What a successful [login] leaves behind. *)
Lemma login_inv env username password w session accs w' :
  login P env username password w = (Return (Some (session, accs)), w') ->
  exists id,
    fst (verifyAccountPassword P (ByUsername username) password w)
    = Return (Some id)
    /\ session = {| session_id := cuid P (entropy w);
                    expirationDate := now env + SESSION_EXPIRATION_TIME;
                    activeAccountId := Some id |}
    /\ existsb (fun x => (session_id x =? cuid P (entropy w))%string)
               (sessions (db w)) = false
    /\ account_exists (db w) id = true
    /\ db w' = set_AccountToSession
                 (set_sessions (db w) (sessions (db w) ++ [session]))
                 (AccountToSession (db w) ++ [(id, cuid P (entropy w))])
    /\ console w' = console w.
Proof.
  unfold login, bind.
  pose proof (verifyAccountPassword_pure P (ByUsername username) password w) as Hp.
  destruct (verifyAccountPassword P (ByUsername username) password w)
    as [[[id|]|e] w1]; simpl in Hp; subst w1; try discriminate.
  unfold newId, bind, draw, ret, transaction, tx_bind, session_create,
    session_connect_account. simpl.
  destruct (existsb _ (sessions (db w))) eqn:Hfresh; [discriminate|]. simpl.
  unfold account_exists. simpl.
  destruct (existsb _ (accounts (db w))) eqn:Hacc; simpl; [|discriminate].
  intros [= <- <- <-]. exists id. simpl. auto 10.
Qed.

Lemma verifyAccountPassword_null where_ password w :
  fst (verifyAccountPassword P where_ password w) = Return None <->
  account_findUnique where_ (db w) = None
  \/ (exists a, account_findUnique where_ (db w) = Some a
                /\ account_password (db w) a = None)
  \/ (exists a pw, account_findUnique where_ (db w) = Some a
                   /\ account_password (db w) a = Some pw
                   /\ bcrypt_compare P password (hash pw) = false).
Proof.
  unfold verifyAccountPassword, bind, read.
  destruct (account_findUnique where_ (db w)) as [a|] eqn:Ha; simpl; [|tauto].
  destruct (account_password (db w) a) as [pw|] eqn:Hpw; simpl.
  - destruct (bcrypt_compare P password (hash pw)) eqn:Hc; simpl.
    + split; [discriminate|].
      intros [H|[(a' & H & H')|(a' & pw' & H & H' & H'')]]; congruence.
    + split; [|reflexivity]. intros _. right. right. now exists a, pw.
  - split; [|reflexivity]. intros _. right. left. now exists a.
Qed.

(** X1. [login] returns null exactly when the username has no account,
    the account has no stored password, or the password is rejected by
    the stored hash; and then nothing was written, not even a draw
    made. *)
Theorem login_null_writes_nothing env username password w :
  (fst (login P env username password w) = Return None <->
   account_findUnique (ByUsername username) (db w) = None
   \/ (exists a, account_findUnique (ByUsername username) (db w) = Some a
                 /\ account_password (db w) a = None)
   \/ (exists a pw, account_findUnique (ByUsername username) (db w) = Some a
                    /\ account_password (db w) a = Some pw
                    /\ bcrypt_compare P password (hash pw) = false))
  /\ (fst (login P env username password w) = Return None ->
      snd (login P env username password w) = w).
Proof.
  rewrite <- verifyAccountPassword_null.
  unfold login, bind.
  pose proof (verifyAccountPassword_pure P (ByUsername username) password w) as Hp.
  destruct (verifyAccountPassword P (ByUsername username) password w)
    as [[[id|]|e] w1]; simpl in Hp; subst w1; simpl.
  - unfold newId, bind, draw, ret, transaction, tx_bind, session_create,
      session_connect_account. simpl.
    destruct (existsb _ (sessions (db w))); simpl;
      [split; [split|]; discriminate|].
    destruct (negb _); simpl; split; try split; discriminate.
  - tauto.
  - split; [split|]; discriminate.
Qed.

End Login.

Section LoginSession.

Variable P : Platform.

(** X2. The session [login] returns resolves to the account that logged
    in for thirty days: an auth cookie holding its id yields that account
    at every instant before [now + SESSION_EXPIRATION_TIME], and from
    that instant on it is destroyed and the caller sent to the home
    route. *)
Theorem login_session_resolves_until_expiry
    env username password w session accs w' env' request :
  login P env username password w = (Return (Some (session, accs)), w') ->
  session_id session <> EmptyString ->
  cookie_sessionId request = Some (session_id session) ->
  exists id,
    activeAccountId session = Some id
    /\ fst (verifyAccountPassword P (ByUsername username) password w)
       = Return (Some id)
    /\ (now env' < now env + 2592000000 ->
        getAccountId env' request w' = (Return (Some id), w'))
    /\ (now env + 2592000000 <= now env' ->
        getAccountId env' request w' = (Throw homeRedirect, w')).
Proof.
  intros Hlogin Hne Hcookie.
  destruct (login_inv P _ _ _ _ _ _ _ Hlogin)
    as (id & Hver & -> & Hfresh & Hacc & Hdb & _).
  simpl in Hne, Hcookie. exists id. split; [reflexivity|]. split; [exact Hver|].
  change 2592000000 with SESSION_EXPIRATION_TIME.
  set (sid := cuid P (entropy w)) in *.
  set (session := {| session_id := sid;
                     expirationDate := now env + SESSION_EXPIRATION_TIME;
                     activeAccountId := Some id |}) in *.
  split.
  - intros Hlt. unfold getAccountId. rewrite Hcookie.
    apply truthy_Some in Hne. rewrite Hne. simpl. unfold bind, read.
    assert (Hs : session_findUnique_gt sid (now env') (db w') = Some session).
    { unfold session_findUnique_gt. rewrite Hdb. simpl.
      apply find_app_fresh.
      - apply existsb_find_none. apply find_none_iff. intros x Hx.
        rewrite (existsb_false_In _ _ x Hfresh Hx). reflexivity.
      - simpl. rewrite String.eqb_refl. simpl. now apply Z.ltb_lt. }
    rewrite Hs.
    unfold account_exists in Hacc. apply existsb_exists in Hacc as (a & Ha & Hid).
    apply String.eqb_eq in Hid.
    assert (Hex : exists x, In x (session_accounts (db w') sid)
                            /\ option_eqb (activeAccountId session)
                                          (account_id x) = true).
    { exists a. split.
      - unfold session_accounts. rewrite Hdb. simpl. apply filter_In.
        split; [exact Ha|]. rewrite Hid. apply joined_app_fresh.
      - simpl. rewrite Hid. apply String.eqb_refl. }
    apply find_Some_iff in Hex as (x & Hx). rewrite Hx.
    apply find_some in Hx as [_ Hx]. simpl in Hx. apply String.eqb_eq in Hx.
    now rewrite <- Hx.
  - intros Hge. apply getAccountId_unresolved with sid; trivial.
    intros a (s0 & Hin & Hid & Hlt & _).
    rewrite Hdb in Hin. simpl in Hin. apply in_app_or in Hin as [Hin|[<-|[]]].
    + pose proof (existsb_false_In _ _ s0 Hfresh Hin) as Hf. simpl in Hf.
      apply String.eqb_neq in Hf. contradiction.
    + simpl in Hlt. lia.
Qed.

End LoginSession.

(** ** Signing up and the constraints on accounts *)

Section SignupRollback.

Variable P : Platform.


End SignupRollback.

(** ** Resetting a password *)

Section Reset.

Variable P : Platform.

Lemma find_map_preserved {A} (f : A -> bool) (g : A -> A) (l : list A) :
  (forall x, f (g x) = f x) ->
  find f (map g l) = option_map g (find f l).
Proof.
  intros Hfg. induction l as [|x l IH]; simpl; [reflexivity|].
  rewrite Hfg. destruct (f x); [reflexivity|exact IH].
Qed.

Lemma resetAccountPassword_inv username password w a w' :
  resetAccountPassword P username password w = (Return a, w') ->
  account_findUnique (ByUsername username) (db w) = Some a
  /\ existsb (fun p => (password_accountId p =? account_id a)%string)
             (passwords (db w)) = true
  /\ db w' = set_passwords (db w)
       (map (fun p =>
               if (password_accountId p =? account_id a)%string
               then {| password_accountId := password_accountId p;
                       hash := bcrypt_hash P password 10%nat (entropy w) |}
               else p)
            (passwords (db w))).
Proof.
  unfold resetAccountPassword, getPasswordHash, bind, draw, ret, transaction,
    tx_bind, password_update, tx_ret. simpl.
  destruct (account_findUnique (ByUsername username) (db w)) as [b|];
    [|discriminate].
  destruct (existsb _ (passwords (db w))) eqn:Hpw; [|discriminate].
  intros [= <- <-]. auto.
Qed.

(** X8. After [resetAccountPassword] has returned, the new password
    verifies under the username and a password the new hash rejects does
    not; the stored password of every other account is what it was; and
    no session is touched: every auth cookie resolves as before. *)
Theorem resetAccountPassword_then_verify username password w a w' :
  (forall p rounds salt, bcrypt_compare P p (bcrypt_hash P p rounds salt) = true) ->
  resetAccountPassword P username password w = (Return a, w') ->
  verifyAccountPassword P (ByUsername username) password w'
  = (Return (Some (account_id a)), w')
  /\ (forall q,
        bcrypt_compare P q (bcrypt_hash P password 10%nat (entropy w)) = false ->
        verifyAccountPassword P (ByUsername username) q w' = (Return None, w'))
  /\ (forall b,
        account_id b <> account_id a ->
        account_password (db w') b = account_password (db w) b)
  /\ (forall env request,
        fst (getAccountId env request w') = fst (getAccountId env request w)).
Proof.
  intros Hlaw Hreset.
  destruct (resetAccountPassword_inv _ _ _ _ _ Hreset) as (Ha & Hpw & Hdb).
  set (h := bcrypt_hash P password 10%nat (entropy w)) in *.
  assert (Hfind : account_findUnique (ByUsername username) (db w') = Some a).
  { unfold account_findUnique. rewrite Hdb. exact Ha. }
  assert (Hstored : exists pw, account_password (db w') a = Some pw /\ hash pw = h).
  { unfold account_password. rewrite Hdb. simpl.
    rewrite find_map_preserved
      by (intros x; simpl;
          destruct (password_accountId x =? account_id a)%string eqn:E;
          simpl; exact E).
    apply existsb_find_none_false in Hpw as (p0 & Hp0). rewrite Hp0. simpl.
    apply find_some in Hp0 as [_ Hp0]. rewrite Hp0. eexists. split; reflexivity. }
  destruct Hstored as (pw & Hpw' & Hh).
  conjs.
  - unfold verifyAccountPassword, bind, read. rewrite Hfind, Hpw'. simpl.
    rewrite Hh. unfold h. now rewrite Hlaw.
  - intros q Hq. unfold verifyAccountPassword, bind, read.
    rewrite Hfind, Hpw'. simpl. now rewrite Hh, Hq.
  - intros b Hb. unfold account_password. rewrite Hdb. simpl.
    rewrite find_map_preserved
      by (intros x; simpl;
          destruct (password_accountId x =? account_id a)%string; reflexivity).
    destruct (find _ (passwords (db w))) as [p|] eqn:Hp; [|reflexivity].
    simpl. apply find_some in Hp as [_ Hp]. apply String.eqb_eq in Hp.
    rewrite Hp. apply String.eqb_neq in Hb. now rewrite Hb.
  - intros env request. apply getAccountId_reads; rewrite Hdb; reflexivity.
Qed.

(** X9. [resetAccountPassword] for a username without account, or for
    an account without stored password, throws and leaves the database
    as it was: it never creates a password. *)
Theorem resetAccountPassword_needs_a_password username password w :
  (account_findUnique (ByUsername username) (db w) = None ->
   fst (resetAccountPassword P username password w)
   = Throw (PrismaClientError (RecordNotFound "Account")))
  /\ (forall a,
        account_findUnique (ByUsername username) (db w) = Some a ->
        account_password (db w) a = None ->
        fst (resetAccountPassword P username password w)
        = Throw (PrismaClientError (RecordNotFound "Password")))
  /\ (forall e,
        fst (resetAccountPassword P username password w) = Throw e ->
        db (snd (resetAccountPassword P username password w)) = db w).
Proof.
  unfold resetAccountPassword, getPasswordHash, bind, draw, ret, transaction,
    tx_bind, password_update, tx_ret. simpl. conjs.
  - intros ->. reflexivity.
  - intros a -> Hnone. unfold account_password in Hnone.
    apply existsb_find_none in Hnone. rewrite Hnone. reflexivity.
  - intros e.
    destruct (account_findUnique (ByUsername username) (db w)) as [b|];
      [|reflexivity].
    destruct (existsb _ (passwords (db w))); [discriminate|reflexivity].
Qed.

End Reset.

(** ** Logging out *)

Section Logout.

Variable safeRedirect : string -> string.

(** X10. [logout] always throws the redirect to the safe form of its
    target (by default the home route) with the header that destroys the
    auth cookie ahead of the caller's headers, whatever the cookie holds
    and whether or not a session row was deleted; accounts, passwords
    and connections are never touched. *)
Theorem logout_always_destroys_cookie deleted request redirectTo responseInit w :
  let out := logout safeRedirect deleted request redirectTo responseInit w in
  fst out
  = Throw (ThrownResponse
      {| status :=
           match responseInit with
           | Some init => match init_status init with Some st => st | None => 302 end
           | None => 302
           end;
         location := Some
           {| pathname :=
                safeRedirect match redirectTo with Some r => r | None => "/" end;
              searchParams := [] |};
         setCookie :=
           DestroyAuthSession
           :: match responseInit with
              | Some init => init_headers init
              | None => []
              end;
         body := NoBody |})
  /\ accounts (db (snd out)) = accounts (db w)
  /\ passwords (db (snd out)) = passwords (db w)
  /\ connections (db (snd out)) = connections (db w)
  /\ console (snd out) = console w.
Proof.
  unfold logout, bind, write, ret, throw. simpl.
  destruct (cookie_sessionId request) as [sid|]; simpl; [|auto].
  destruct (negb (sid =? EmptyString)%string); simpl; [|auto].
  destruct deleted; simpl; auto.
Qed.

Lemma find_filter_implied {A} (f g : A -> bool) (l : list A) :
  (forall x, f x = true -> g x = true) ->
  find f (filter g l) = find f l.
Proof.
  intros H. induction l as [|x l IH]; simpl; [reflexivity|].
  destruct (f x) eqn:Hf.
  - rewrite (H x Hf). simpl. now rewrite Hf.
  - destruct (g x); simpl; [now rewrite Hf|exact IH].
Qed.

Lemma joined_filter_other (t : list (Id * Id)) (a sid sid' : Id) :
  sid' <> sid ->
  joined (filter (fun p => negb (snd p =? sid)%string) t) a sid'
  = joined t a sid'.
Proof.
  intros Hne. unfold joined.
  induction t as [|[x y] t IH]; simpl; [reflexivity|].
  destruct (y =? sid)%string eqn:Hy; simpl.
  - rewrite IH. apply String.eqb_eq in Hy. subst y.
    unfold pair_eqb. simpl. apply String.eqb_neq in Hne. rewrite Hne.
    now rewrite andb_false_r.
  - now rewrite IH.
Qed.

(** X11. Once the delete of [logout] has taken effect, the session id
    of the cookie resolves no more, at whatever instant, while the auth
    cookie of every other session resolves exactly as before. *)
Theorem logout_ends_the_session_only request redirectTo responseInit w sid :
  cookie_sessionId request = Some sid ->
  sid <> EmptyString ->
  let w' := snd (logout safeRedirect true request redirectTo responseInit w) in
  (forall env' request',
     cookie_sessionId request' = Some sid ->
     getAccountId env' request' w' = (Throw homeRedirect, w'))
  /\ (forall env' request' sid',
        cookie_sessionId request' = Some sid' ->
        sid' <> sid ->
        fst (getAccountId env' request' w') = fst (getAccountId env' request' w)).
Proof.
  intros Hcookie Hne w'.
  assert (Hdb : db w' = session_deleteMany sid (db w)).
  { unfold w', logout, bind, write, ret, throw. rewrite Hcookie.
    apply truthy_Some in Hne. rewrite Hne. reflexivity. }
  split.
  - intros env' request' Hc. apply getAccountId_unresolved with sid; trivial.
    intros a (s0 & Hin & Hid & _). rewrite Hdb in Hin. simpl in Hin.
    apply filter_In in Hin as [_ Hin]. rewrite Hid, String.eqb_refl in Hin.
    discriminate.
  - intros env' request' sid' Hc Hother. unfold getAccountId. rewrite Hc.
    destruct (negb (truthy (Some sid'))); [reflexivity|].
    unfold bind, read, session_findUnique_gt, session_accounts.
    rewrite Hdb. simpl.
    rewrite find_filter_implied.
    2:{ intros x Hx. apply andb_prop in Hx as [Hx _].
        apply String.eqb_eq in Hx. rewrite Hx.
        apply String.eqb_neq in Hother. now rewrite Hother. }
    destruct (find _ (sessions (db w))) as [s0|]; [|reflexivity].
    rewrite (filter_ext _ (fun a => joined (AccountToSession (db w))
                                      (account_id a) sid'))
      by (intros a; now apply joined_filter_other).
    destruct (find _ (filter _ (accounts (db w)))); reflexivity.
Qed.

End Logout.

(** ** Authentication before authorization *)

Section Guards.

Variable P : Platform.

Lemma requireAccountId_without_session env request redirectTo w :
  truthy (cookie_sessionId request) = false ->
  requireAccountId env request redirectTo w
  = (Throw (loginThrow request redirectTo), w).
Proof.
  intros Hc. unfold requireAccountId, bind, getAccountId.
  destruct (cookie_sessionId request) as [sid|]; [|reflexivity].
  rewrite Hc. reflexivity.
Qed.

Lemma requireAccountId_unresolved env request redirectTo w sid :
  cookie_sessionId request = Some sid ->
  sid <> EmptyString ->
  (forall a, ~ resolves (db w) (now env) sid a) ->
  requireAccountId env request redirectTo w = (Throw homeRedirect, w).
Proof.
  intros Hc Hne Hno. unfold requireAccountId, bind.
  now rewrite (getAccountId_unresolved env request w sid Hc Hne Hno).
Qed.

(** X12. Both permission checks authenticate first: a caller without
    session id gets the redirect to the login route with the current
    path and query as [redirectTo], and a caller whose session id does
    not resolve gets the redirect to the home route with the cookie
    destroyed; neither gets the 403 response, whatever is required. *)
Theorem authorization_authenticates_first env request permission n w :
  (truthy (cookie_sessionId request) = false ->
   requireUserWithPermission P env request permission w
   = (Throw (loginThrow request Undefined), w)
   /\ requireUserWithRole env request n w
      = (Throw (loginThrow request Undefined), w))
  /\ (forall sid,
        cookie_sessionId request = Some sid ->
        sid <> EmptyString ->
        (forall a, ~ resolves (db w) (now env) sid a) ->
        requireUserWithPermission P env request permission w
        = (Throw homeRedirect, w)
        /\ requireUserWithRole env request n w = (Throw homeRedirect, w)).
Proof.
  split.
  - intros Hc. unfold requireUserWithPermission, requireUserWithRole, bind.
    now rewrite (requireAccountId_without_session env request Undefined w Hc).
  - intros sid Hc Hne Hno.
    unfold requireUserWithPermission, requireUserWithRole, bind.
    now rewrite (requireAccountId_unresolved env request Undefined w sid Hc Hne Hno).
Qed.

Lemma existsb_impl {A} (f g : A -> bool) (l : list A) :
  (forall x, f x = true -> g x = true) ->
  existsb f l = true -> existsb g l = true.
Proof.
  intros H Hf. apply existsb_exists in Hf as (x & Hin & Hx).
  apply existsb_exists. exists x. auto.
Qed.

Lemma permission_where_widens pd1 pd2 l p :
  pd_action pd2 = pd_action pd1 ->
  pd_entity pd2 = pd_entity pd1 ->
  pd_access pd1 = Some l ->
  (pd_access pd2 = None
   \/ exists l', pd_access pd2 = Some l' /\ incl l l') ->
  permission_where pd1 p = true -> permission_where pd2 p = true.
Proof.
  intros Ha He Hl Hw. unfold permission_where. rewrite Ha, He, Hl.
  intros H. apply andb_prop in H as [H Hacc]. rewrite H. simpl.
  destruct Hw as [->|(l' & -> & Hincl)]; [reflexivity|].
  apply existsb_exists in Hacc as (x & Hin & Hx).
  apply existsb_exists. exists x. split; [now apply Hincl|exact Hx].
Qed.

(** X13. Asking for more accesses never loses an authorization: a caller
    admitted for an action and entity with a set of accesses is admitted
    for the same action and entity with any larger set, and with no
    access given at all. *)
Theorem requireUserWithPermission_widens
    env request permission1 permission2 l w id :
  pd_action (parsePermissionString P permission2)
  = pd_action (parsePermissionString P permission1) ->
  pd_entity (parsePermissionString P permission2)
  = pd_entity (parsePermissionString P permission1) ->
  pd_access (parsePermissionString P permission1) = Some l ->
  (pd_access (parsePermissionString P permission2) = None
   \/ exists l', pd_access (parsePermissionString P permission2) = Some l'
                 /\ incl l l') ->
  requireUserWithPermission P env request permission1 w = (Return id, w) ->
  requireUserWithPermission P env request permission2 w = (Return id, w).
Proof.
  intros Ha He Hl Hw. unfold requireUserWithPermission, bind, read, user_findFirst.
  pose proof (requireAccountId_pure env request Undefined w) as Hp.
  destruct (requireAccountId env request Undefined w) as [[i|e] w1];
    simpl in Hp; subst w1; [|discriminate].
  destruct (find _ (users (db w))) as [u|] eqn:Hu; [|discriminate].
  intros [= Hid]. apply find_some in Hu as [Hin Hwhere].
  assert (Hex : exists x, In x (users (db w))
    /\ user_where_permission (db w) i (organizationScope env)
         (parsePermissionString P permission2) x = true).
  { exists u. split; [exact Hin|]. unfold user_where_permission in *.
    apply andb_prop in Hwhere as [Hu Hm]. rewrite Hu. simpl.
    revert Hm. apply existsb_impl. intros m Hm.
    apply andb_prop in Hm as [Ho Hr]. rewrite Ho. simpl.
    revert Hr. apply existsb_impl. intros r.
    apply existsb_impl. intros p. now apply permission_where_widens with l. }
  apply find_Some_iff in Hex as (u2 & Hu2). rewrite Hu2.
  apply find_some in Hu2 as [_ Hw2]. apply andb_prop in Hw2 as [Hw2 _].
  apply andb_prop in Hwhere as [Hw1 _].
  apply String.eqb_eq in Hw1, Hw2. unfold ret. congruence.
Qed.

(** X14. [requireAnonymous] lets a caller pass only when the auth cookie
    holds no session id; a caller with a session that resolves is sent
    to the home route, and so is one whose session id does not resolve,
    with the cookie destroyed. *)
Theorem requireAnonymous_cases env request w :
  (truthy (cookie_sessionId request) = false ->
   requireAnonymous env request w = (Return tt, w))
  /\ (forall a,
        fst (getAccountId env request w) = Return (Some a) ->
        a <> EmptyString ->
        requireAnonymous env request w
        = (Throw (ThrownResponse (redirect (path "/") [])), w))
  /\ (forall sid,
        cookie_sessionId request = Some sid ->
        sid <> EmptyString ->
        (forall a, ~ resolves (db w) (now env) sid a) ->
        requireAnonymous env request w = (Throw homeRedirect, w)).
Proof.
  unfold requireAnonymous, bind. conjs.
  - intros Hc. apply getAccountId_null with (env := env) (w := w) in Hc.
    pose proof (getAccountId_pure env request w) as Hp.
    destruct (getAccountId env request w) as [o w1]. simpl in *. now subst.
  - intros a Hg Hne. pose proof (getAccountId_pure env request w) as Hp.
    destruct (getAccountId env request w) as [o w1]. simpl in *. subst.
    apply truthy_Some in Hne. now rewrite Hne.
  - intros sid Hc Hne Hno.
    now rewrite (getAccountId_unresolved env request w sid Hc Hne Hno).
Qed.

(** X15. What [requireAccountId] returns is never empty and is the id
    of an account row: a lookup of the account by that id finds it. *)
Theorem requireAccountId_returns_an_account env request redirectTo w id :
  fst (requireAccountId env request redirectTo w) = Return id ->
  id <> EmptyString
  /\ (exists a, account_findUnique (ById id) (db w) = Some a /\ account_id a = id)
  /\ exists sid, cookie_sessionId request = Some sid
                 /\ resolves (db w) (now env) sid id.
Proof.
  unfold requireAccountId, bind.
  destruct (getAccountId env request w) as [[[a|]|e] w1] eqn:Hg;
    try discriminate.
  destruct (truthy (Some a)) eqn:Ht; [|discriminate].
  intros [= <-]. split; [now apply truthy_Some|].
  assert (Ha : fst (getAccountId env request w) = Return (Some a))
    by now rewrite Hg.
  destruct (getAccountId_resolved _ _ _ _ Ha) as (sid & Hc & _ & Hr).
  split; [|now exists sid].
  destruct Hr as (_ & _ & _ & _ & _ & Hmem).
  apply in_map_iff in Hmem as (acc & Hid & Hacc).
  apply filter_In in Hacc as [Hacc _].
  assert (Hex : exists x, In x (accounts (db w))
                          /\ account_where (ById a) x = true).
  { exists acc. split; [exact Hacc|]. simpl. now apply String.eqb_eq. }
  apply find_Some_iff in Hex as (x & Hx). exists x. split; [exact Hx|].
  apply find_some in Hx as [_ Hx]. now apply String.eqb_eq in Hx.
Qed.

End Guards.

(** ** The branches of the OAuth callback *)

Section Branches.

Variable P : Platform.

Ltac loader_start Hprimary Hname Hauth :=
  unfold loader, ensurePrimary, ProviderNameSchema_parse, bind;
  rewrite Hprimary, Hname; simpl; rewrite Hauth; unfold read.

Lemma strict_eqb_eq (v w : option string) : strict_eqb v w = true <-> v = w.
Proof.
  destruct v as [x|], w as [y|]; simpl; try (split; congruence).
  rewrite String.eqb_eq. split; congruence.
Qed.

(** X16. When the connection of the provider identity belongs to an
    account other than the caller's, the callback answers with the
    redirect to the connections route and the toast that the provider
    account is connected to another account, and writes nothing. *)
Theorem loader_connected_to_another_account
    env request provider profile c a w :
  isPrimary env = true ->
  ProviderNameSchema P provider = true ->
  authenticate env provider request = inl profile ->
  connection_findUnique provider (profile_id profile) (db w) = Some c ->
  fst (getAccountId env request w) = Return (Some a) ->
  a <> EmptyString ->
  connection_accountId c <> Some a ->
  loader P env request (Some provider) w
  = (Return (redirectWithToast connectionsRoute
               (toastAlreadyConnected P provider profile false)
               destroyRedirectTo), w).
Proof.
  intros Hprimary Hname Hauth Hconn Hget Hne Hother.
  loader_start Hprimary Hname Hauth. rewrite Hconn.
  pose proof (getAccountId_pure env request w) as Hp.
  destruct (getAccountId env request w) as [o w1]. simpl in Hget, Hp.
  subst o w1. apply truthy_Some in Hne. rewrite Hne.
  destruct (strict_eqb (connection_accountId c) (Some a)) eqn:Hs; [|reflexivity].
  apply strict_eqb_eq in Hs. contradiction.
Qed.

(** X17. An authenticated caller whose provider identity has no
    connection gets one: the callback appends the connection of the
    identity to the caller's account, changes nothing else in the
    database, and answers with the success toast; the same callback
    repeated finds the connection and answers that the account is
    already connected, writing nothing more. *)
Theorem loader_connects_then_recognizes env request provider profile a w :
  isPrimary env = true ->
  ProviderNameSchema P provider = true ->
  authenticate env provider request = inl profile ->
  connection_findUnique provider (profile_id profile) (db w) = None ->
  fst (getAccountId env request w) = Return (Some a) ->
  a <> EmptyString ->
  existsb (fun x => (connection_id x =? cuid P (entropy w))%string)
          (connections (db w)) = false ->
  let c := {| connection_id := cuid P (entropy w); providerName := provider;
              providerId := profile_id profile;
              connection_accountId := Some a |} in
  let w1 := {| db := set_connections (db w) (connections (db w) ++ [c]);
               console := console w; entropy := S (entropy w) |} in
  loader P env request (Some provider) w
  = (Return (redirectWithToast connectionsRoute
               (toastConnected P provider profile (Some "success"))
               destroyRedirectTo), w1)
  /\ loader P env request (Some provider) w1
     = (Return (redirectWithToast connectionsRoute
                  (toastAlreadyConnected P provider profile true)
                  destroyRedirectTo), w1).
Proof.
  intros Hprimary Hname Hauth Hconn Hget Hne Hfresh c w1.
  assert (Hacc : account_exists (db w) a = true).
  { destruct (getAccountId_resolved _ _ _ _ Hget) as (sid & _ & _ & Hr).
    destruct Hr as (_ & _ & _ & _ & _ & Hmem).
    apply in_map_iff in Hmem as (acc & Hid & Hin).
    apply filter_In in Hin as [Hin _]. unfold account_exists.
    apply existsb_exists. exists acc. split; [exact Hin|].
    now apply String.eqb_eq. }
  assert (Hget1 : fst (getAccountId env request w1) = Return (Some a)).
  { rewrite <- Hget. now apply getAccountId_reads. }
  assert (Hconn1 : connection_findUnique provider (profile_id profile) (db w1)
                   = Some c).
  { unfold connection_findUnique. simpl. apply find_app_fresh.
    - now apply existsb_find_none.
    - simpl. now rewrite !String.eqb_refl. }
  apply truthy_Some in Hne. split.
  - loader_start Hprimary Hname Hauth. rewrite Hconn.
    pose proof (getAccountId_pure env request w) as Hp.
    destruct (getAccountId env request w) as [o w0]. simpl in Hget, Hp.
    subst o w0. rewrite Hne.
    unfold newId, bind, draw, ret, transaction, connection_create. simpl.
    rewrite Hfresh. apply existsb_find_none in Hconn.
    unfold connection_findUnique in Hconn. rewrite Hconn. rewrite Hacc.
    reflexivity.
  - loader_start Hprimary Hname Hauth. rewrite Hconn1.
    pose proof (getAccountId_pure env request w1) as Hp.
    destruct (getAccountId env request w1) as [o w0]. simpl in Hget1, Hp.
    subst o w0. rewrite Hne. simpl. rewrite String.eqb_refl. reflexivity.
Qed.

(** X18. A callback whose auth cookie holds a session id that does
    not resolve ends at the resolution of the caller, whatever the
    provider identity: the redirect to the home route that destroys the
    cookie is thrown, and no connection or session is created. *)
Theorem loader_unresolved_session_goes_home env request provider profile sid w :
  isPrimary env = true ->
  ProviderNameSchema P provider = true ->
  authenticate env provider request = inl profile ->
  cookie_sessionId request = Some sid ->
  sid <> EmptyString ->
  (forall a, ~ resolves (db w) (now env) sid a) ->
  loader P env request (Some provider) w = (Throw homeRedirect, w).
Proof.
  intros Hprimary Hname Hauth Hc Hne Hno.
  loader_start Hprimary Hname Hauth.
  now rewrite (getAccountId_unresolved env request w sid Hc Hne Hno).
Qed.

End Branches.

Section CallbackWrites.

Variable P : Platform.

Lemma callback_frame_same_db w w' : db w' = db w -> callback_frame w w'.
Proof. intros H. unfold callback_frame. rewrite H. auto 15. Qed.

Lemma callback_frame_trans w1 w2 w3 :
  callback_frame w1 w2 -> callback_frame w2 w3 -> callback_frame w1 w3.
Proof.
  unfold callback_frame.
  intros (A1 & A2 & A3 & A4 & A5 & A6 & A7 & A8 & A9 & A10 & A11)
         (B1 & B2 & B3 & B4 & B5 & B6 & B7 & B8 & B9 & B10 & B11).
  conjs; congruence.
Qed.

(** What a write of a connection does to the world. *)
Lemma connection_write c w :
  let w' := snd (transaction (connection_create c) w) in
  callback_frame w w'
  /\ sessions (db w') = sessions (db w)
  /\ console w' = console w
  /\ (connections (db w') = connections (db w)
      \/ connections (db w') = connections (db w) ++ [c]
         /\ existsb (fun x => (providerName x =? providerName c)%string
                              && (providerId x =? providerId c)%string)
                    (connections (db w)) = false).
Proof.
  unfold transaction, connection_create.
  destruct (existsb _ (connections (db w))); simpl;
    [split; [now apply callback_frame_same_db|auto]|].
  destruct (existsb _ (connections (db w))) eqn:Hkey; simpl;
    [split; [now apply callback_frame_same_db|auto]|].
  destruct (match connection_accountId c with Some _ => _ | None => _ end); simpl;
    [split; [now apply callback_frame_same_db|auto]|].
  split; [unfold callback_frame; simpl; auto 15|auto].
Qed.

(** What [makeSession] does to the world. *)
Lemma makeSession_write env request a r headers w :
  let w' := snd (makeSession P env request a r headers w) in
  callback_frame w w'
  /\ connections (db w') = connections (db w)
  /\ console w' = console w
  /\ (sessions (db w') = sessions (db w)
      \/ sessions (db w')
         = sessions (db w)
           ++ [{| session_id := cuid P (entropy w);
                  expirationDate := now env + SESSION_EXPIRATION_TIME;
                  activeAccountId := a |}]
         /\ existsb (fun x => (session_id x =? cuid P (entropy w))%string)
                    (sessions (db w)) = false).
Proof.
  unfold makeSession, handleNewSession, newId, bind, draw, ret, transaction,
    session_create, read. simpl.
  destruct (existsb _ (sessions (db w))) eqn:Hfresh; simpl;
    [split; [now apply callback_frame_same_db|auto]|].
  destruct a as [a|]; simpl;
    [|split; [unfold callback_frame; simpl; auto 15|auto]].
  match goal with
  | |- context [verification_findUnique ?t ?ty ?st] =>
      destruct (verification_findUnique t ty st)
  end; simpl; (split; [unfold callback_frame; simpl; auto 15|auto]).
Qed.

End CallbackWrites.

Section CallbackInvariants.

Variable P : Platform.

Lemma after_makeSession env request a r headers w w0 :
  callback_frame w w0 ->
  appended_connection w w0 ->
  sessions (db w0) = sessions (db w) ->
  let w' := snd (makeSession P env request a r headers w0) in
  callback_frame w w' /\ appended_connection w w' /\ appended_session w w'.
Proof.
  intros Hf Hc Hs w'.
  destruct (makeSession_write P env request a r headers w0)
    as (Hf' & Hc' & _ & Hs'). fold w' in Hf', Hc', Hs'.
  conjs.
  - now apply callback_frame_trans with w0.
  - unfold appended_connection in *. now rewrite Hc'.
  - unfold appended_session. rewrite <- Hs.
    destruct Hs' as [Hs'|[Hs' Hfresh]]; [now left|].
    right. eexists. split; [exact Hs'|exact Hfresh].
Qed.

Lemma after_connection_write c w w0 :
  db w0 = db w ->
  let w' := snd (transaction (connection_create c) w0) in
  callback_frame w w' /\ appended_connection w w'
  /\ sessions (db w') = sessions (db w).
Proof.
  intros Hdb w'.
  destruct (connection_write c w0) as (Hf & Hs & _ & Hc).
  fold w' in Hf, Hs, Hc. conjs.
  - apply callback_frame_trans with w0; [now apply callback_frame_same_db|exact Hf].
  - unfold appended_connection. rewrite <- Hdb.
    destruct Hc as [Hc|[Hc Hkey]]; [now left|].
    right. exists c. now split.
  - now rewrite Hs, Hdb.
Qed.

Lemma loader_writes env request provider w :
  let w' := snd (loader P env request provider w) in
  callback_frame w w' /\ appended_connection w w' /\ appended_session w w'.
Proof.
  assert (Hsame : forall w', db w' = db w ->
            callback_frame w w' /\ appended_connection w w'
            /\ appended_session w w').
  { intros w' H. split; [now apply callback_frame_same_db|].
    unfold appended_connection, appended_session. rewrite H. auto. }
  unfold loader, ensurePrimary, ProviderNameSchema_parse, bind, ret, throw.
  destruct (isPrimary env); simpl; [|now apply Hsame].
  destruct provider as [p|]; simpl; [|now apply Hsame].
  destruct (ProviderNameSchema P p); simpl; [|now apply Hsame].
  destruct (authenticate env p request) as [profile|err]; simpl;
    [|now apply Hsame].
  unfold read.
  pose proof (getAccountId_pure env request w) as Hp.
  destruct (connection_findUnique p (profile_id profile) (db w)) as [c|];
    destruct (getAccountId env request w) as [[o|e] w0]; simpl in Hp; subst w0;
    simpl; try (now apply Hsame).
  - destruct (truthy o); simpl.
    + destruct (strict_eqb (connection_accountId c) o); now apply Hsame.
    + apply after_makeSession; [now apply callback_frame_same_db|now left|reflexivity].
  - destruct (truthy o); simpl.
    + unfold newId, bind, draw, ret. simpl.
      match goal with
      | |- context [transaction (connection_create ?c) ?w0] =>
          destruct (after_connection_write c w w0 eq_refl) as (Hf & Hc & Hs);
          destruct (transaction (connection_create c) w0) as [[[]|e] w1]
      end; simpl in *; (conjs; [exact Hf|exact Hc|now left]).
    + destruct (account_findUnique _ (db w)) as [u|]; simpl;
        [|now apply Hsame].
      unfold newId, bind, draw, ret. simpl.
      match goal with
      | |- context [transaction (connection_create ?c) ?w0] =>
          destruct (after_connection_write c w w0 eq_refl) as (Hf & Hc & Hs);
          destruct (transaction (connection_create c) w0) as [[[]|e] w1]
      end; simpl in *.
      * now apply after_makeSession.
      * conjs; [exact Hf|exact Hc|now left].
Qed.

Lemma loader_sessions_only_grow env request provider w :
  AccountToSession (db (snd (loader P env request provider w)))
  = AccountToSession (db w)
  /\ exists more,
       sessions (db (snd (loader P env request provider w)))
       = sessions (db w) ++ more.
Proof.
  destruct (loader_writes env request provider w) as (Hf & _ & Hs).
  destruct Hf as (_ & _ & _ & _ & _ & _ & _ & _ & Hj & _).
  split; [exact Hj|].
  destruct Hs as [Hs|(s0 & Hs & _)].
  - exists []. now rewrite app_nil_r.
  - now exists [s0].
Qed.

(** X19. The callback never touches an account, a password, a user, a
    membership, a role, a permission, a verification or a link between
    them, and never removes or changes a row: whatever the request, the
    provider's answer and the database, it appends at most one
    connection and at most one session. *)
Theorem loader_only_appends env request provider w :
  let w' := snd (loader P env request provider w) in
  callback_frame w w'
  /\ exists more_sessions more_connections,
       sessions (db w') = sessions (db w) ++ more_sessions
       /\ connections (db w') = connections (db w) ++ more_connections
       /\ (length more_sessions <= 1)%nat
       /\ (length more_connections <= 1)%nat.
Proof.
  intros w'. destruct (loader_writes env request provider w) as (Hf & Hc & Hs).
  fold w' in Hf, Hc, Hs. split; [exact Hf|].
  destruct Hs as [Hs|(s0 & Hs & _)]; destruct Hc as [Hc|(c & Hc & _)];
    rewrite Hs, Hc.
  - exists [], []. rewrite !app_nil_r. simpl. auto.
  - exists [], [c]. rewrite !app_nil_r. simpl. auto.
  - exists [s0], []. rewrite !app_nil_r. simpl. auto.
  - exists [s0], [c]. simpl. auto.
Qed.

(** X20. The callback keeps the uniqueness of provider identities: if
    no two connections share provider name and provider id before, none
    do after. *)
Theorem loader_keeps_connections_unique env request provider w :
  connections_unique (db w) ->
  connections_unique (db (snd (loader P env request provider w))).
Proof.
  intros Hu. destruct (loader_writes env request provider w) as (_ & Hc & _).
  unfold connections_unique in *.
  destruct Hc as [->|(c & -> & Hkey)]; [exact Hu|].
  rewrite map_app. simpl.
  apply NoDup_app; [exact Hu|repeat constructor; intros []|].
  intros k Hin [<-|[]].
  apply in_map_iff in Hin as (x & Hx & Hin).
  pose proof (existsb_false_In _ _ x Hkey Hin) as Hf. simpl in Hf.
  unfold connection_key in Hx. injection Hx as Hn Hi.
  rewrite Hn, Hi, !String.eqb_refl in Hf. discriminate.
Qed.

(** X21. A session made by [makeSession] is in no account set, so the
    cookie that carries its id never resolves: whenever [makeSession]
    returns, [getAccountId] on that session id throws the redirect to
    the home route, at whatever instant. *)
Theorem makeSession_session_never_resolves
    env request a r headers w response w' env' request' :
  makeSession P env request a r headers w = (Return response, w') ->
  AccountToSession_B_fkey (db w) ->
  cuid P (entropy w) <> EmptyString ->
  cookie_sessionId request' = Some (cuid P (entropy w)) ->
  getAccountId env' request' w' = (Throw homeRedirect, w').
Proof.
  intros Hmake Hfk Hne Hcookie.
  destruct (makeSession_write P env request a r headers w)
    as (Hf & _ & _ & Hs). rewrite Hmake in Hf, Hs. simpl in Hf, Hs.
  assert (Hfresh : existsb (fun x => (session_id x =? cuid P (entropy w))%string)
                           (sessions (db w)) = false).
  { revert Hmake.
    unfold makeSession, newId, bind, draw, ret, transaction, session_create.
    simpl. destruct (existsb _ (sessions (db w))); [discriminate|reflexivity]. }
  apply getAccountId_unresolved with (cuid P (entropy w)); trivial.
  intros b (_ & _ & _ & _ & _ & Hmem).
  apply in_map_iff in Hmem as (acc & _ & Hacc).
  apply filter_In in Hacc as [_ Hj].
  destruct Hf as (_ & _ & _ & _ & _ & _ & _ & _ & Hjoin & _).
  rewrite Hjoin in Hj. unfold joined in Hj.
  apply existsb_exists in Hj as ([x y] & Hin & Hxy).
  apply andb_prop in Hxy as [Hx Hy]. simpl in Hx, Hy.
  apply String.eqb_eq in Hx, Hy. subst x y.
  apply Hfk in Hin. congruence.
Qed.

(** X22. A caller without session id whose profile e-mail, in lower
    case, is that of an account gets the provider identity connected to
    that account and a session made with it as active account; the
    connection and the session are the only rows added, and the response
    is the one the new session is handed over with, carrying the toast
    and destroying the redirect-target cookie. *)
Theorem loader_connects_account_by_email env request provider profile u w :
  isPrimary env = true ->
  ProviderNameSchema P provider = true ->
  authenticate env provider request = inl profile ->
  connection_findUnique provider (profile_id profile) (db w) = None ->
  truthy (cookie_sessionId request) = false ->
  account_findUnique (ByEmail (toLowerCase P (profile_email profile))) (db w)
  = Some u ->
  existsb (fun x => (connection_id x =? cuid P (entropy w))%string)
          (connections (db w)) = false ->
  existsb (fun x => (session_id x =? cuid P (S (entropy w)))%string)
          (sessions (db w)) = false ->
  let c := {| connection_id := cuid P (entropy w); providerName := provider;
              providerId := profile_id profile;
              connection_accountId := Some (account_id u) |} in
  let s := {| session_id := cuid P (S (entropy w));
              expirationDate := now env + SESSION_EXPIRATION_TIME;
              activeAccountId := Some (account_id u) |} in
  let w' := {| db := set_sessions
                       (set_connections (db w) (connections (db w) ++ [c]))
                       (sessions (db w) ++ [s]);
               console := console w; entropy := S (S (entropy w)) |} in
  loader P env request (Some provider) w
  = handleNewSession P request s "/" true
      (createToastHeaders (toastConnected P provider profile None)
       ++ destroyRedirectTo) w'
  /\ snd (loader P env request (Some provider) w) = w'.
Proof.
  intros Hprimary Hname Hauth Hconn Hcookie Hu Hcid Hsid c s w'.
  assert (Hrun : loader P env request (Some provider) w
                 = handleNewSession P request s "/" true
                     (createToastHeaders (toastConnected P provider profile None)
                      ++ destroyRedirectTo) w').
  { unfold loader, ensurePrimary, ProviderNameSchema_parse, bind.
    rewrite Hprimary, Hname. simpl. rewrite Hauth. unfold read. rewrite Hconn.
    apply getAccountId_null with (env := env) (w := w) in Hcookie as Hget.
    pose proof (getAccountId_pure env request w) as Hp.
    destruct (getAccountId env request w) as [o w0]. simpl in Hget, Hp.
    subst o w0. simpl. rewrite Hu.
    unfold newId, bind, draw, ret, transaction, connection_create. simpl.
    rewrite Hcid. apply existsb_find_none in Hconn.
    unfold connection_findUnique in Hconn. rewrite Hconn.
    assert (Hacc : account_exists (db w) (account_id u) = true).
    { unfold account_exists. apply existsb_exists. exists u.
      apply find_some in Hu as [Hin _]. split; [exact Hin|apply String.eqb_refl]. }
    rewrite Hacc. simpl.
    unfold makeSession, newId, bind, draw, ret, transaction, session_create.
    simpl. rewrite Hsid. reflexivity. }
  split; [exact Hrun|]. rewrite Hrun.
  unfold handleNewSession, bind, read, ret. simpl.
  match goal with
  | |- context [verification_findUnique ?t ?ty ?st] =>
      destruct (verification_findUnique t ty st)
  end; reflexivity.
Qed.

End CallbackInvariants.

(** ** Referential integrity of the account sets *)

Section Integrity.

Variable P : Platform.
Variable safeRedirect : string -> string.

Lemma fkey_append (s s' : Store) (a sid : Id) (row : Session) :
  AccountToSession_B_fkey s ->
  session_id row = sid ->
  sessions s' = sessions s ++ [row] ->
  AccountToSession s' = AccountToSession s ++ [(a, sid)] ->
  AccountToSession_B_fkey s'.
Proof.
  intros Hfk Hid Hs Hj b t Hin. rewrite Hs. rewrite Hj in Hin.
  rewrite existsb_app. apply in_app_or in Hin as [Hin|[[= <- <-]|[]]].
  - rewrite (Hfk b t Hin). reflexivity.
  - simpl. rewrite Hid, String.eqb_refl. simpl. now rewrite orb_true_r.
Qed.

Lemma fkey_more_sessions (s s' : Store) (more : list Session) :
  AccountToSession_B_fkey s ->
  sessions s' = sessions s ++ more ->
  AccountToSession s' = AccountToSession s ->
  AccountToSession_B_fkey s'.
Proof.
  intros Hfk Hs Hj b t Hin. rewrite Hs. rewrite Hj in Hin.
  rewrite existsb_app, (Hfk b t Hin). reflexivity.
Qed.

(** X23. No operation leaves a row of the account sets pointing to a
    session that is gone: if every row of [_AccountToSession] names an
    existing session before, so it does after [signup], [login],
    [resetAccountPassword], [logout] and the callback, whether they
    return or throw. *)
Theorem AccountToSession_B_fkey_is_kept w :
  AccountToSession_B_fkey (db w) ->
  (forall env email username password name,
     AccountToSession_B_fkey
       (db (snd (signup P env email username password name w))))
  /\ (forall env username password,
        AccountToSession_B_fkey (db (snd (login P env username password w))))
  /\ (forall username password,
        AccountToSession_B_fkey
          (db (snd (resetAccountPassword P username password w))))
  /\ (forall deleted request redirectTo responseInit,
        AccountToSession_B_fkey
          (db (snd (logout safeRedirect deleted request redirectTo
                      responseInit w))))
  /\ (forall env request provider,
        AccountToSession_B_fkey (db (snd (loader P env request provider w)))).
Proof.
  intros Hfk. conjs.
  - intros env email username password name.
    now rewrite signup_writes_nothing.
  - intros env username password. unfold login, bind.
    pose proof (verifyAccountPassword_pure P (ByUsername username) password w)
      as Hp.
    destruct (verifyAccountPassword P (ByUsername username) password w)
      as [[[id|]|e0] w1]; simpl in Hp; subst w1; try exact Hfk.
    unfold newId, bind, draw, ret, transaction, tx_bind, session_create,
      session_connect_account. simpl.
    destruct (existsb _ (sessions (db w))); simpl; [exact Hfk|].
    destruct (negb _); simpl; [exact Hfk|].
    eapply fkey_append; [exact Hfk| |reflexivity|reflexivity]. reflexivity.
  - intros username password.
    unfold resetAccountPassword, getPasswordHash, bind, draw, ret, transaction,
      tx_bind, password_update, tx_ret. simpl.
    destruct (account_findUnique (ByUsername username) (db w)) as [a|];
      [|exact Hfk].
    destruct (existsb _ (passwords (db w))); exact Hfk.
  - intros deleted request redirectTo responseInit.
    unfold logout, bind, write, ret, throw.
    destruct (cookie_sessionId request) as [sid|]; simpl; [|exact Hfk].
    destruct (negb (sid =? EmptyString)%string); simpl; [|exact Hfk].
    destruct deleted; simpl; [|exact Hfk].
    intros b t Hin. apply filter_In in Hin as [Hin Ht]. simpl in Ht.
    apply Hfk in Hin. apply existsb_exists in Hin as (x & Hx & Hid).
    apply existsb_exists. exists x. split; [|exact Hid].
    apply filter_In. split; [exact Hx|].
    apply String.eqb_eq in Hid. now rewrite Hid.
  - intros env request provider.
    destruct (loader_sessions_only_grow P env request provider w) as (Hj & more & Hs).
    now apply fkey_more_sessions with (db w) more.
Qed.

End Integrity.

(** ** The properties at work *)

Lemma login_null_writes_nothing_witness :
  snd (login Reference.platform (Reference.env 2000) "alice" "wrong"
         Scenario.registered)
  = Scenario.registered.
Proof.
  apply (proj2 (login_null_writes_nothing Reference.platform
                  (Reference.env 2000) "alice" "wrong" Scenario.registered)).
  vm_compute. reflexivity.
Defined.

Lemma login_session_resolves_until_expiry_witness :
  getAccountId (Reference.env 3000) Cases.login_request Scenario.logged_in
  = (Return (Some Scenario.alice), Scenario.logged_in).
Proof.
  assert (Hlogin :
    login Reference.platform (Reference.env 2000) "alice" "secret123"
      Scenario.registered
    = (Return (Some ({| session_id := Scenario.login_session;
                        expirationDate := 2000 + SESSION_EXPIRATION_TIME;
                        activeAccountId := Some Scenario.alice |},
                     [Cases.alice_account])),
       Scenario.logged_in)) by (vm_compute; reflexivity).
  assert (Hne : Scenario.login_session <> EmptyString) by discriminate.
  destruct (login_session_resolves_until_expiry Reference.platform
              _ _ _ _ _ _ _ (Reference.env 3000) Cases.login_request
              Hlogin Hne eq_refl) as (id & Hact & _ & Hbefore & _).
  injection Hact as <-. apply Hbefore. vm_compute. reflexivity.
Defined.


Lemma resetAccountPassword_then_verify_witness :
  verifyAccountPassword Reference.platform (ByUsername "alice") "newpass"
    Cases.after_reset
  = (Return (Some Scenario.alice), Cases.after_reset)
  /\ verifyAccountPassword Reference.platform (ByUsername "alice") "secret123"
       Cases.after_reset
     = (Return None, Cases.after_reset)
  /\ fst (getAccountId (Reference.env 3000) Cases.login_request Cases.after_reset)
     = Return (Some Scenario.alice).
Proof.
  assert (Hreset :
    resetAccountPassword Reference.platform "alice" "newpass" Scenario.logged_in
    = (Return Cases.alice_account, Cases.after_reset))
    by (vm_compute; reflexivity).
  destruct (resetAccountPassword_then_verify Reference.platform _ _ _ _ _
              salted_compare_hash Hreset) as (Hnew & Hold & _ & Hsessions).
  conjs.
  - exact Hnew.
  - apply Hold. vm_compute. reflexivity.
  - rewrite Hsessions. vm_compute. reflexivity.
Defined.

Lemma resetAccountPassword_needs_a_password_witness :
  fst (resetAccountPassword Reference.platform "nobody" "newpass"
         Scenario.logged_in)
  = Throw (PrismaClientError (RecordNotFound "Account")).
Proof.
  apply (proj1 (resetAccountPassword_needs_a_password Reference.platform
                  "nobody" "newpass" Scenario.logged_in)).
  vm_compute. reflexivity.
Defined.

Lemma logout_ends_the_session_only_witness :
  getAccountId (Reference.env 3000) Cases.login_request Cases.logged_out
  = (Throw homeRedirect, Cases.logged_out).
Proof.
  assert (Hne : Scenario.login_session <> EmptyString) by discriminate.
  apply (proj1 (logout_ends_the_session_only Cases.local_path
                  Cases.login_request None None Scenario.logged_in
                  Scenario.login_session eq_refl Hne)).
  reflexivity.
Defined.

Lemma authorization_authenticates_first_witness :
  requireUserWithPermission Reference.platform (Reference.env 3000)
    (Reference.request None) "read:note:own" Scenario.logged_in
  = (Throw (ThrownResponse (redirect
       {| pathname := "/login"; searchParams := [("redirectTo", "/settings")] |}
       [])),
     Scenario.logged_in).
Proof.
  apply (proj1 (authorization_authenticates_first Reference.platform
                  (Reference.env 3000) (Reference.request None)
                  "read:note:own" "user" Scenario.logged_in)).
  reflexivity.
Defined.

Lemma requireUserWithPermission_widens_witness :
  requireUserWithPermission Reference.platform (Reference.env 3000)
    Scenario.bob_request "read:note" Scenario.member_only
  = (Return "bob", Scenario.member_only).
Proof.
  apply (requireUserWithPermission_widens Reference.platform
           (Reference.env 3000) Scenario.bob_request
           "read:note:own" "read:note" ["own"] Scenario.member_only "bob").
  - reflexivity.
  - reflexivity.
  - reflexivity.
  - left. reflexivity.
  - vm_compute. reflexivity.
Defined.

Lemma requireAnonymous_cases_witness :
  requireAnonymous (Reference.env 3000) Cases.login_request Scenario.logged_in
  = (Throw (ThrownResponse (redirect (path "/") [])), Scenario.logged_in).
Proof.
  apply (proj1 (proj2 (requireAnonymous_cases (Reference.env 3000)
                         Cases.login_request Scenario.logged_in))
           Scenario.alice).
  - vm_compute. reflexivity.
  - discriminate.
Defined.

Lemma requireAccountId_returns_an_account_witness :
  exists a,
    account_findUnique (ById Scenario.alice) (db Scenario.logged_in) = Some a
    /\ account_id a = Scenario.alice.
Proof.
  assert (Hreq : fst (requireAccountId (Reference.env 3000) Cases.login_request
                        Undefined Scenario.logged_in)
                 = Return Scenario.alice) by (vm_compute; reflexivity).
  exact (proj1 (proj2 (requireAccountId_returns_an_account _ _ _ _ _ Hreq))).
Defined.

Lemma loader_connected_to_another_account_witness :
  loader Reference.platform (Scenario.provider_env 4000 (inl Scenario.octocat))
    Cases.mallory_request (Some "github") Cases.with_mallory
  = (Return (redirectWithToast connectionsRoute
               (toastAlreadyConnected Reference.platform "github"
                  Scenario.octocat false)
               destroyRedirectTo),
     Cases.with_mallory).
Proof.
  apply (loader_connected_to_another_account Reference.platform
           (Scenario.provider_env 4000 (inl Scenario.octocat))
           Cases.mallory_request "github" Scenario.octocat
           Scenario.alice_connection Cases.mallory Cases.with_mallory).
  - reflexivity.
  - reflexivity.
  - reflexivity.
  - vm_compute. reflexivity.
  - vm_compute. reflexivity.
  - discriminate.
  - discriminate.
Defined.

Lemma loader_connects_then_recognizes_witness :
  let w1 :=
    {| db := set_connections (db Scenario.logged_in)
               (connections (db Scenario.logged_in)
                ++ [ {| connection_id :=
                          cuid Reference.platform (entropy Scenario.logged_in);
                        providerName := "github";
                        providerId := profile_id Scenario.octocat;
                        connection_accountId := Some Scenario.alice |} ]);
       console := console Scenario.logged_in;
       entropy := S (entropy Scenario.logged_in) |} in
  loader Reference.platform (Scenario.provider_env 3000 (inl Scenario.octocat))
    Cases.login_request (Some "github") w1
  = (Return (redirectWithToast connectionsRoute
               (toastAlreadyConnected Reference.platform "github"
                  Scenario.octocat true)
               destroyRedirectTo),
     w1).
Proof.
  assert (Hne : Scenario.alice <> EmptyString) by discriminate.
  assert (Hget : fst (getAccountId (Scenario.provider_env 3000 (inl Scenario.octocat))
                        Cases.login_request Scenario.logged_in)
                 = Return (Some Scenario.alice)) by (vm_compute; reflexivity).
  assert (Hconn : connection_findUnique "github" (profile_id Scenario.octocat)
                    (db Scenario.logged_in)
                  = None) by (vm_compute; reflexivity).
  assert (Hfresh :
    existsb (fun x => (connection_id x
                       =? cuid Reference.platform (entropy Scenario.logged_in))%string)
            (connections (db Scenario.logged_in)) = false)
    by (vm_compute; reflexivity).
  exact (proj2 (loader_connects_then_recognizes Reference.platform
                  (Scenario.provider_env 3000 (inl Scenario.octocat))
                  Cases.login_request "github" Scenario.octocat
                  Scenario.alice Scenario.logged_in
                  eq_refl eq_refl eq_refl Hconn Hget Hne Hfresh)).
Defined.

Lemma loader_unresolved_session_goes_home_witness :
  loader Reference.platform
    (Scenario.provider_env Scenario.long_after (inl Scenario.octocat))
    Cases.login_request (Some "github") Scenario.linked
  = (Throw homeRedirect, Scenario.linked).
Proof.
  apply (loader_unresolved_session_goes_home Reference.platform
           (Scenario.provider_env Scenario.long_after (inl Scenario.octocat))
           Cases.login_request "github" Scenario.octocat
           Scenario.login_session Scenario.linked).
  - reflexivity.
  - reflexivity.
  - reflexivity.
  - reflexivity.
  - discriminate.
  - intros a (session & Hin & Hid & Hlt & _).
    vm_compute in Hin. destruct Hin as [<-|[<-|[]]].
    + discriminate Hid.
    + vm_compute in Hlt. discriminate Hlt.
Defined.

Lemma linked_fkey : AccountToSession_B_fkey (db Scenario.linked).
Proof.
  intros a sid Hin. vm_compute in Hin.
  destruct Hin as [[= <- <-]|[[= <- <-]|[]]]; vm_compute; reflexivity.
Defined.

Lemma makeSession_session_never_resolves_witness :
  getAccountId (Reference.env 5000)
    (Reference.request (Some Scenario.callback_session))
    (snd Scenario.called_back)
  = (Throw homeRedirect, snd Scenario.called_back).
Proof.
  assert (Hmake :
    makeSession Reference.platform (Scenario.provider_env 4000 (inl Scenario.octocat))
      (Reference.request None) (Some Scenario.alice) None [] Scenario.linked
    = (Return (redirect (path "/")
                 [CommitAuthSession Scenario.callback_session
                    (Some (4000 + SESSION_EXPIRATION_TIME));
                  DestroyRedirectTo]),
       snd Scenario.called_back)) by (vm_compute; reflexivity).
  assert (Hne : cuid Reference.platform (entropy Scenario.linked) <> EmptyString)
    by discriminate.
  exact (makeSession_session_never_resolves Reference.platform _ _ _ _ _ _ _ _
           (Reference.env 5000)
           (Reference.request (Some Scenario.callback_session))
           Hmake linked_fkey Hne eq_refl).
Defined.

Lemma loader_connects_account_by_email_witness :
  connections
    (db (snd (loader Reference.platform
                (Scenario.provider_env 3000 (inl Scenario.octocat))
                (Reference.request None) (Some "github") Scenario.logged_in)))
  = [ {| connection_id := Reference.tally_cuid 6; providerName := "github";
         providerId := "gh-1"; connection_accountId := Some Scenario.alice |} ].
Proof.
  assert (Hconn : connection_findUnique "github" "gh-1" (db Scenario.logged_in)
                  = None) by (vm_compute; reflexivity).
  assert (Hu : account_findUnique
                 (ByEmail (toLowerCase Reference.platform
                             (profile_email Scenario.octocat)))
                 (db Scenario.logged_in)
               = Some Cases.alice_account) by (vm_compute; reflexivity).
  assert (Hcid :
    existsb (fun x => (connection_id x
                       =? cuid Reference.platform (entropy Scenario.logged_in))%string)
            (connections (db Scenario.logged_in)) = false)
    by (vm_compute; reflexivity).
  assert (Hsid :
    existsb (fun x => (session_id x
                       =? cuid Reference.platform
                            (S (entropy Scenario.logged_in)))%string)
            (sessions (db Scenario.logged_in)) = false)
    by (vm_compute; reflexivity).
  rewrite (proj2 (loader_connects_account_by_email Reference.platform
                    (Scenario.provider_env 3000 (inl Scenario.octocat))
                    (Reference.request None) "github" Scenario.octocat
                    Cases.alice_account Scenario.logged_in
                    eq_refl eq_refl eq_refl Hconn eq_refl Hu Hcid Hsid)).
  vm_compute. reflexivity.
Defined.

Lemma AccountToSession_B_fkey_is_kept_witness :
  AccountToSession_B_fkey (db Cases.logged_out).
Proof.
  pose proof (AccountToSession_B_fkey_is_kept Reference.platform
                Cases.local_path Scenario.logged_in) as H.
  assert (Hfk : AccountToSession_B_fkey (db Scenario.logged_in)).
  { intros a sid Hin. vm_compute in Hin.
    destruct Hin as [[= <- <-]|[[= <- <-]|[]]]; vm_compute; reflexivity. }
  destruct (H Hfk) as (_ & _ & _ & Hlogout & _).
  exact (Hlogout true Cases.login_request None None).
Defined.

(** ** Where the login redirect leads back to *)

(** X24. For a caller without session id, [requireAccountId] throws the
    redirect to the login route: without query when [redirectTo] is null
    or the empty string, with the given target when one is given, and
    with the path and query of the request when nothing is given. *)
Theorem requireAccountId_redirectTo env request w :
  truthy (cookie_sessionId request) = false ->
  requireAccountId env request Null w
  = (Throw (ThrownResponse (redirect (path "/login") [])), w)
  /\ requireAccountId env request (Defined EmptyString) w
     = (Throw (ThrownResponse (redirect (path "/login") [])), w)
  /\ (forall target,
        target <> EmptyString ->
        requireAccountId env request (Defined target) w
        = (Throw (ThrownResponse (redirect
             {| pathname := "/login"; searchParams := [("redirectTo", target)] |}
             [])), w))
  /\ ((url_pathname request ++ url_search request)%string <> EmptyString ->
      requireAccountId env request Undefined w
      = (Throw (ThrownResponse (redirect
           {| pathname := "/login";
              searchParams :=
                [("redirectTo",
                  (url_pathname request ++ url_search request)%string)] |}
           [])), w)).
Proof.
  intros Hc.
  assert (Hreq : forall r, requireAccountId env request r w
                           = (Throw (loginThrow request r), w)).
  { intros r. unfold requireAccountId, bind, getAccountId.
    destruct (cookie_sessionId request) as [sid|]; [|reflexivity].
    rewrite Hc. reflexivity. }
  conjs.
  - now rewrite Hreq.
  - now rewrite Hreq.
  - intros target Hne. rewrite Hreq. unfold loginThrow, loginRedirect.
    apply truthy_Some in Hne. now rewrite Hne.
  - intros Hne. rewrite Hreq. unfold loginThrow, loginRedirect.
    apply truthy_Some in Hne. now rewrite Hne.
Qed.

Lemma requireAccountId_redirectTo_witness :
  requireAccountId (Reference.env 3000) Scenario.pending_request Undefined
    Scenario.logged_in
  = (Throw (ThrownResponse (redirect
       {| pathname := "/login";
          searchParams :=
            [("redirectTo", "/auth/github/callback?code=1&state=2")] |}
       [])),
     Scenario.logged_in).
Proof.
  apply (proj2 (proj2 (proj2 (requireAccountId_redirectTo (Reference.env 3000)
                                Scenario.pending_request Scenario.logged_in
                                eq_refl)))).
  discriminate.
Defined.

Lemma loader_keeps_connections_unique_witness :
  connections_unique
    (db (snd (loader Reference.platform
                (Scenario.provider_env 3000 (inl Scenario.octocat))
                Cases.login_request (Some "github") Scenario.logged_in))).
Proof.
  apply loader_keeps_connections_unique.
  unfold connections_unique. vm_compute. constructor.
Defined.
